(** * ea-pip-updater: the website resolution pipeline and batch updater

    A shallow embedding of the enhanced updater script
    (scripts/update-websites.js, three tiers with scoring and CSV output)
    and of its TypeScript sibling (src/websites.ts), with the properties
    of the specification stated and proved over it.

    Conventions.
    - JavaScript strings are modelled by [string] (sequences of 8-bit
      characters); case folding and the whitespace class are the ASCII
      ones.
    - The platform's URL constructor is not code of the repository: it is
      the field [URL_hostname] of the class [Platform], so that every
      general theorem holds for whatever the platform does.  [NodeURL] is
      a concrete model of it, used where a statement is evaluated on a
      concrete input.
    - Network calls and prompts are answered by an environment [Env] that
      sees the whole history of the run; the history is the state that is
      threaded through the asynchronous functions. *)

From Stdlib Require Import String Ascii List Bool Arith ZArith Lia.
From Stdlib Require Import Sorting.Sorted Sorting.Permutation.
Import ListNotations.

Local Open Scope string_scope.
Local Open Scope list_scope.

(* ================================================================= *)
(** ** Strings as the scripts use them *)

Module Str.

Definition code (c : ascii) : nat := nat_of_ascii c.

Definition between (lo hi : nat) (c : ascii) : bool :=
  Nat.leb lo (code c) && Nat.leb (code c) hi.

Definition isUpper : ascii -> bool := between 65 90.
Definition isLower : ascii -> bool := between 97 122.
Definition isDigit : ascii -> bool := between 48 57.
Definition isAlpha (c : ascii) : bool := isUpper c || isLower c.
Definition isAlnum (c : ascii) : bool := isAlpha c || isDigit c.

(** [\w] of a regular expression. *)
Definition isWord (c : ascii) : bool := isAlnum c || Ascii.eqb c "_".

(** [\s] of a regular expression and the characters [trim] removes,
    within ASCII: tab, line feed, vertical tab, form feed, carriage
    return, space. *)
Definition isSpace (c : ascii) : bool :=
  between 9 13 c || Ascii.eqb c " ".

Definition lower (c : ascii) : ascii :=
  if isUpper c then ascii_of_nat (code c + 32) else c.

(** [s.toLowerCase()] *)
Fixpoint toLowerCase (s : string) : string :=
  match s with
  | EmptyString => EmptyString
  | String c s' => String (lower c) (toLowerCase s')
  end.

Definition isEmpty (s : string) : bool :=
  match s with EmptyString => true | _ => false end.

(** [s.startsWith(p)] *)
Fixpoint startsWith (p s : string) : bool :=
  match p, s with
  | EmptyString, _ => true
  | String a p', String b s' => Ascii.eqb a b && startsWith p' s'
  | String _ _, EmptyString => false
  end.

(** A literal prefix of a regular expression under the [i] flag. *)
Definition startsWithCI (p s : string) : bool :=
  startsWith (toLowerCase p) (toLowerCase s).

(** [s.includes(sub)] *)
Fixpoint includes (sub s : string) : bool :=
  startsWith sub s ||
  match s with
  | EmptyString => false
  | String _ s' => includes sub s'
  end.

(** [s.slice(n)] *)
Fixpoint drop (n : nat) (s : string) : string :=
  match n, s with
  | O, _ => s
  | S n', String _ s' => drop n' s'
  | S _, EmptyString => EmptyString
  end.

Fixpoint filter (keep : ascii -> bool) (s : string) : string :=
  match s with
  | EmptyString => EmptyString
  | String c s' => if keep c then String c (filter keep s') else filter keep s'
  end.

Fixpoint forallb (p : ascii -> bool) (s : string) : bool :=
  match s with
  | EmptyString => true
  | String c s' => p c && forallb p s'
  end.

Definition existsb (p : ascii -> bool) (s : string) : bool :=
  negb (forallb (fun c => negb (p c)) s).

(** The longest prefix of characters that satisfy [p], and what follows. *)
Fixpoint takeWhile (p : ascii -> bool) (s : string) : string :=
  match s with
  | EmptyString => EmptyString
  | String c s' => if p c then String c (takeWhile p s') else EmptyString
  end.

Fixpoint dropWhile (p : ascii -> bool) (s : string) : string :=
  match s with
  | EmptyString => EmptyString
  | String c s' => if p c then dropWhile p s' else s
  end.

Definition trimStart (s : string) : string := dropWhile isSpace s.

(** [s] without its longest suffix of characters that satisfy [p]. *)
Fixpoint dropWhileEnd (p : ascii -> bool) (s : string) : string :=
  match s with
  | EmptyString => EmptyString
  | String c s' =>
      match dropWhileEnd p s' with
      | EmptyString => if p c then EmptyString else String c EmptyString
      | t => String c t
      end
  end.

Definition trimEnd (s : string) : string := dropWhileEnd isSpace s.

(** [s.trim()] *)
Definition trim (s : string) : string := trimEnd (trimStart s).

(** [!s || s.trim() === ''] on a string. *)
Definition isBlank (s : string) : bool := isEmpty (trim s).

(** [s.split('/')[0]] *)
Definition beforeSlash (s : string) : string :=
  takeWhile (fun c => negb (Ascii.eqb c "/")) s.

(** [lines.join(sep)] *)
Fixpoint join (sep : string) (l : list string) : string :=
  match l with
  | [] => ""
  | [x] => x
  | x :: rest => x ++ sep ++ join sep rest
  end.

End Str.

Import Str.

(* ================================================================= *)
(** ** The platform and the configuration *)

(** [URL_hostname s] is [new URL(s).hostname]: [None] when the
    constructor throws. *)
Class Platform := { URL_hostname : string -> option string }.

(** The fields of [CONFIG] that decide behaviour.  [main] sets them once
    from the command line, before any record is processed. *)
Record Config := {
  forceWww : bool;
  googleCseKey : string;
  googleCx : string;
  openaiKey : string;
  enableDomainGuessing : bool;
  enableGoogleSearch : bool;
  enableOpenAI : bool
}.

(** [CONFIG] as the script initializes it, with the keys the process
    environment provides. *)
Definition defaultConfig (cseKey cx aiKey : string) : Config :=
  {| forceWww := true;
     googleCseKey := cseKey;
     googleCx := cx;
     openaiKey := aiKey;
     enableDomainGuessing := true;
     enableGoogleSearch := true;
     enableOpenAI := false |}.

(* ================================================================= *)
(** ** Domain normalization *)

(** [url.replace(/^(https?:\/\/)?(www\.)?/i, '')]: both groups are
    optional and greedy. *)
Definition stripScheme (s : string) : string :=
  if startsWithCI "https://" s then drop 8 s
  else if startsWithCI "http://" s then drop 7 s
  else s.

Definition stripWww (s : string) : string :=
  if startsWithCI "www." s then drop 4 s else s.

Definition stripSchemeWww (s : string) : string := stripWww (stripScheme s).

(** The argument handed to the URL constructor. *)
Definition urlTarget (url : string) : string :=
  if startsWith "http" url then url else "https://" ++ url.

Section Normalizer.
Context {platform : Platform}.
Variable CONFIG : Config.

Definition normalizeDomain (url : string) : string :=
  if isEmpty url then ""
  else
    let url := trim url in
    match URL_hostname (urlTarget url) with
    | Some host =>
        if forceWww CONFIG && negb (startsWith "www." host)
        then "www." ++ host else host
    | None =>
        let url := beforeSlash (stripSchemeWww url) in
        if forceWww CONFIG && negb (startsWithCI "www." url)
        then "www." ++ url else url
    end.

End Normalizer.

(* ================================================================= *)
(** ** A model of the platform's URL constructor

    [NodeURL.hostname s] follows the URL standard's parser as far as the
    host of [s] is concerned, for ASCII input and without a base URL:
    scheme, the slashes of a special scheme, credentials, host and port,
    percent-decoding and case folding of a domain, the forbidden code
    points.  Not modelled: IPv4 and IPv6 literals are kept as written
    (the standard re-serializes them), and internationalized names. *)

Module NodeURL.

Definition isChar (a : ascii) (c : ascii) : bool := Ascii.eqb a c.

Definition isC0OrSpace (c : ascii) : bool := Nat.leb (code c) 32.

Definition isTabOrNewline (c : ascii) : bool :=
  Nat.eqb (code c) 9 || Nat.eqb (code c) 10 || Nat.eqb (code c) 13.

Definition preprocess (s : string) : string :=
  filter (fun c => negb (isTabOrNewline c))
         (dropWhileEnd isC0OrSpace (dropWhile isC0OrSpace s)).

Definition isSchemeChar (c : ascii) : bool :=
  isAlnum c || isChar "+" c || isChar "-" c || isChar "." c.

Fixpoint scanScheme (acc s : string) : option (string * string) :=
  match s with
  | EmptyString => None
  | String c s' =>
      if isChar ":" c then Some (acc, s')
      else if isSchemeChar c
           then scanScheme (acc ++ String (lower c) EmptyString) s'
           else None
  end.

Definition parseScheme (s : string) : option (string * string) :=
  match s with
  | String c _ => if isAlpha c then scanScheme "" s else None
  | EmptyString => None
  end.

Definition isSpecial (scheme : string) : bool :=
  String.eqb scheme "http" || String.eqb scheme "https" ||
  String.eqb scheme "ws" || String.eqb scheme "wss" ||
  String.eqb scheme "ftp".

Definition isSlash (c : ascii) : bool := isChar "/" c || isChar "\" c.

Definition authorityEnd (special : bool) (c : ascii) : bool :=
  isChar "/" c || isChar "?" c || isChar "#" c || (special && isChar "\" c).

Definition hasAt (s : string) : bool := existsb (isChar "@") s.

Fixpoint afterLastAt (s : string) : string :=
  match s with
  | EmptyString => EmptyString
  | String c s' =>
      if hasAt s' then afterLastAt s'
      else if isChar "@" c then s' else s
  end.

(** The host ends at the first colon outside square brackets. *)
Fixpoint splitHostPort (inBrackets : bool) (s : string)
  : string * option string :=
  match s with
  | EmptyString => (EmptyString, None)
  | String c s' =>
      if isChar ":" c && negb inBrackets then (EmptyString, Some s')
      else
        let inside :=
          if isChar "[" c then true
          else if isChar "]" c then false else inBrackets in
        let (h, p) := splitHostPort inside s' in
        (String c h, p)
  end.

Fixpoint portValue (acc : N) (s : string) : N :=
  match s with
  | EmptyString => acc
  | String c s' => portValue (10 * acc + N.of_nat (code c - 48)) s'
  end.

Definition validPort (p : string) : bool :=
  forallb isDigit p && N.leb (portValue 0 p) 65535.

Definition hexVal (c : ascii) : option nat :=
  if isDigit c then Some (code c - 48)
  else if between 65 70 c then Some (code c - 55)
  else if between 97 102 c then Some (code c - 87)
  else None.

Fixpoint percentDecode (s : string) : string :=
  match s with
  | EmptyString => EmptyString
  | String c s1 =>
      if isChar "%" c then
        match s1 with
        | String a (String b rest) =>
            match hexVal a, hexVal b with
            | Some x, Some y =>
                String (ascii_of_nat (16 * x + y)) (percentDecode rest)
            | _, _ => String c (percentDecode s1)
            end
        | _ => String c (percentDecode s1)
        end
      else String c (percentDecode s1)
  end.

Definition forbiddenHost (c : ascii) : bool :=
  Nat.eqb (code c) 0 || isTabOrNewline c || isChar " " c || isChar "#" c ||
  isChar "/" c || isChar ":" c || isChar "<" c || isChar ">" c ||
  isChar "?" c || isChar "@" c ||
  isChar "[" c || isChar "\" c || isChar "]" c || isChar "^" c || isChar "|" c.

Definition forbiddenDomain (c : ascii) : bool :=
  forbiddenHost c || Nat.leb (code c) 31 || isChar "%" c ||
  Nat.eqb (code c) 127.

Fixpoint endsWithChar (a : ascii) (s : string) : bool :=
  match s with
  | EmptyString => false
  | String c EmptyString => isChar a c
  | String _ s' => endsWithChar a s'
  end.

Definition parseHost (special : bool) (h : string) : option string :=
  if startsWith "[" h then
    if endsWithChar "]" h then Some (toLowerCase h) else None
  else if negb special then
    if existsb forbiddenHost h then None else Some h
  else
    let d := toLowerCase (percentDecode h) in
    if isEmpty d || existsb forbiddenDomain d then None else Some d.

Definition authorityHost (special : bool) (rest : string) : option string :=
  let auth := takeWhile (fun c => negb (authorityEnd special c)) rest in
  let hp := afterLastAt auth in
  if hasAt auth && isEmpty hp then None
  else
    let (h, port) := splitHostPort false hp in
    match port with
    | Some p =>
        if isEmpty h || negb (validPort p) then None else parseHost special h
    | None =>
        if isEmpty h then (if special then None else Some "")
        else parseHost special h
    end.

Definition isDriveLetter (s : string) : bool :=
  match s with
  | String a (String b EmptyString) =>
      isAlpha a && (isChar ":" b || isChar "|" b)
  | _ => false
  end.

Definition fileHost (rest : string) : option string :=
  match rest with
  | String a (String b rest') =>
      if isSlash a && isSlash b then
        let buf := takeWhile (fun c => negb (authorityEnd true c)) rest' in
        if isEmpty buf || isDriveLetter buf then Some ""
        else
          match parseHost true buf with
          | Some h => if String.eqb h "localhost" then Some "" else Some h
          | None => None
          end
      else Some ""
  | _ => Some ""
  end.

Definition hostname (input : string) : option string :=
  match parseScheme (preprocess input) with
  | None => None
  | Some (scheme, rest) =>
      if String.eqb scheme "file" then fileHost rest
      else if isSpecial scheme then authorityHost true (dropWhile isSlash rest)
      else if startsWith "//" rest then authorityHost false (drop 2 rest)
      else Some ""
  end.

End NodeURL.

#[export] Instance NodeURL_platform : Platform :=
  {| URL_hostname := NodeURL.hostname |}.

(* ================================================================= *)
(** ** Tier 1: domain patterns *)

(** [\b]: exactly one of the two neighbouring characters is a word
    character; the ends of the string count as non-word. *)
Definition isWordOpt (c : option ascii) : bool :=
  match c with Some c => isWord c | None => false end.

Definition head (s : string) : option ascii :=
  match s with String c _ => Some c | EmptyString => None end.

Fixpoint lastChar (d : option ascii) (s : string) : option ascii :=
  match s with
  | EmptyString => d
  | String c s' => lastChar (Some c) s'
  end.

Definition wordBoundary (prev : option ascii) (s : string) : bool :=
  xorb (isWordOpt prev) (isWordOpt (head s)).

(** The alternatives of the suffix expression, in the order in which the
    regular expression tries them. *)
Definition corporateSuffixes : list string :=
  ["inc"; "llc"; "corp"; "ltd"; "limited"; "incorporated"; "corporation";
   "company"; "co"; "l.l.c."; "l.l.c"].

(** The first alternative that matches at the start of [s] and is
    followed by a word boundary: its length. *)
Fixpoint matchAlternative (alts : list string) (s : string) : option nat :=
  match alts with
  | [] => None
  | alt :: more =>
      if startsWithCI alt s &&
         wordBoundary (lastChar None alt) (drop (String.length alt) s)
      then Some (String.length alt)
      else matchAlternative more s
  end.

(** Length of the match of
    [/\b(inc|llc|...|l\.l\.c)\b\.?/i] at the start of [s], where
    [prev] is the character before [s]. *)
Definition matchSuffix (prev : option ascii) (s : string) : option nat :=
  if wordBoundary prev s then
    match matchAlternative corporateSuffixes s with
    | Some n => if startsWith "." (drop n s) then Some (S n) else Some n
    | None => None
    end
  else None.

(** [.replace(/\b(...)\b\.?/gi, '')]: [skip] characters of a match
    are still to be dropped. *)
Fixpoint removeSuffixes (skip : nat) (prev : option ascii) (s : string)
  : string :=
  match s with
  | EmptyString => EmptyString
  | String c s' =>
      match skip with
      | S k => removeSuffixes k (Some c) s'
      | O =>
          match matchSuffix prev s with
          | Some n => removeSuffixes (pred n) (Some c) s'
          | None => String c (removeSuffixes 0 (Some c) s')
          end
      end
  end.

(** [.replace(/^the\s+/i, '')] *)
Definition removeLeadingThe (s : string) : string :=
  if startsWithCI "the" s then
    match head (drop 3 s) with
    | Some c => if isSpace c then dropWhile isSpace (drop 3 s) else s
    | None => s
    end
  else s.

(** [.replace(/[^a-z0-9\s-]/g, '')] *)
Definition keepNameChar (c : ascii) : bool :=
  isLower c || isDigit c || isSpace c || Ascii.eqb c "-".

Definition cleanCompanyName (name : string) : string :=
  trim (filter keepNameChar
          (removeLeadingThe (removeSuffixes 0 None (toLowerCase name)))).

(** [.replace(/\s+/g, '-')]: every run of whitespace becomes one hyphen. *)
Fixpoint hyphenate (inRun : bool) (s : string) : string :=
  match s with
  | EmptyString => EmptyString
  | String c s' =>
      if isSpace c
      then if inRun then hyphenate true s' else String "-" (hyphenate true s')
      else String c (hyphenate false s')
  end.

(** [[...new Set(patterns)]]: the first occurrence of every element, in
    insertion order. *)
Fixpoint uniqueFrom (seen : list string) (l : list string) : list string :=
  match l with
  | [] => []
  | x :: rest =>
      if List.existsb (String.eqb x) seen then uniqueFrom seen rest
      else x :: uniqueFrom (x :: seen) rest
  end.

Definition unique (l : list string) : list string := uniqueFrom [] l.

(** A JavaScript value used as a condition: [undefined] and the empty
    string are falsy. *)
Definition truthy (v : option string) : bool :=
  match v with Some s => negb (isEmpty s) | None => false end.

Definition orEmpty (v : option string) : string :=
  match v with Some s => s | None => "" end.

Section Patterns.
Variable CONFIG : Config.

Definition generateDomainPatterns (companyName : string)
  (city : option string) : list string :=
  let cleaned := cleanCompanyName companyName in
  let noSpaces := filter (fun c => negb (isSpace c)) cleaned in
  let hyphenated := hyphenate false cleaned in
  let noNumbers := filter (fun c => negb (isDigit c)) noSpaces in
  let patterns :=
    [noSpaces ++ ".com"; hyphenated ++ ".com"; noNumbers ++ ".com"]%string in
  let patterns :=
    if truthy city then
      let cityClean :=
        filter (fun c => isLower c || isDigit c) (toLowerCase (orEmpty city)) in
      patterns ++ [(cityClean ++ noSpaces ++ ".com")%string;
                   (noSpaces ++ cityClean ++ ".com")%string]
    else patterns in
  map (fun p => if forceWww CONFIG && negb (startsWith "www." p)
                then ("www." ++ p)%string else p)
      (unique patterns).

End Patterns.

(* ================================================================= *)
(** ** Records of the pipeline *)

Module Customer.
Record t := {
  id : string;
  code : string;
  name : string;
  city : string;
  state : string;
  phone : string;
  currentWebsite : string
}.
End Customer.

Inductive Confidence := high | medium | low.

Definition Confidence_eqb (a b : Confidence) : bool :=
  match a, b with
  | high, high | medium, medium | low, low => true
  | _, _ => false
  end.

(** What a tier returns when it finds a website. *)
Module Cand.
Record t := {
  url : string;
  confidence : Confidence;
  source : string;
  allResults : list string
}.
End Cand.

(** One entry of [json.items] of the search response. *)
Module Item.
Record t := {
  link : string;
  title : option string;
  snippet : option string
}.
End Item.

(** The object [processCustomer] resolves to. *)
Module Res.
Record t := {
  success : bool;
  skipped : bool;
  updated : bool;
  url : option string;
  error : option string
}.
End Res.

Definition skippedResult : Res.t :=
  {| Res.success := true; Res.skipped := true; Res.updated := false;
     Res.url := None; Res.error := None |}.

(** [{ success: saved, skipped: false }] *)
Definition savedResult (saved : bool) : Res.t :=
  {| Res.success := saved; Res.skipped := false; Res.updated := false;
     Res.url := None; Res.error := None |}.

Definition updatedResult (normalizedUrl : string) : Res.t :=
  {| Res.success := true; Res.skipped := false; Res.updated := true;
     Res.url := Some normalizedUrl; Res.error := None |}.

Definition errorResult (message : string) : Res.t :=
  {| Res.success := false; Res.skipped := false; Res.updated := false;
     Res.url := None; Res.error := Some message |}.

(** [opts] of [processCustomer]. *)
Record Opts := {
  nonInteractive : bool;
  website : option string;
  force : bool;
  autoConfirm : bool
}.

(** A row of the batch input: a bare code, or a code with a website. *)
Inductive Row :=
| Bare (code : string)
| Pinned (code website : string).

Definition rowCode (item : Row) : string :=
  match item with Bare c => c | Pinned c _ => c end.

Definition rowWebsite (item : Row) : option string :=
  match item with Bare _ => None | Pinned _ w => Some w end.

(* ================================================================= *)
(** ** The outside world *)

Inductive Tier := DomainGuessing | GoogleSearch | OpenAI.

(** What a run does that can be observed from outside, in order.
    [Invoke t] is the call of the function of tier [t]; the others are
    the requests that leave the process, and the prompts. *)
Inductive Event :=
| Invoke (t : Tier)
| DnsResolve (bareHost : string)
| HttpHead (domain : string)
| GoogleRequest (query : string)
| OpenAIRequest (companyName city state phone : string)
| GetCustomer (customerCode : string)
| SaveCustomer (body : string)
| Question (prompt : string).

Definition History := list Event.

(** The answers of the world, each of which may depend on everything that
    happened before.  A directory call answers [inl message] when
    [soapRequest] rejects with [Error(message)]; a search answers [None]
    on a transport error or an unreadable body. *)
Record Env := {
  dnsResolves : History -> string -> bool;
  httpResponds : History -> string -> bool;
  googleItems : History -> string -> option (list Item.t);
  openaiContent :
    History -> string -> string -> string -> string -> option string;
  directoryCustomer : History -> string -> string + Customer.t;
  directorySave : History -> string -> string + string;
  promptAnswer : History -> string -> string
}.

(** Asynchronous functions: they read and extend the history, and either
    resolve to a value or reject with a message. *)
Definition M (A : Type) : Type := History -> (string + A) * History.

Definition ret {A} (a : A) : M A := fun h => (inr a, h).

Definition bind {A B} (m : M A) (k : A -> M B) : M B :=
  fun h =>
    match m h with
    | (inr a, h') => k a h'
    | (inl message, h') => (inl message, h')
    end.

Definition throw {A} (message : string) : M A := fun h => (inl message, h).

(** [try { body } catch (error) { handler(error.message) }] *)
Definition tryCatch {A} (body : M A) (handler : string -> M A) : M A :=
  fun h =>
    match body h with
    | (inr a, h') => (inr a, h')
    | (inl message, h') => handler message h'
    end.

(** A request: the world answers from the history so far, and the
    request is recorded. *)
Definition request {A} (e : Event) (answer : History -> A) : M A :=
  fun h => (inr (answer h), h ++ [e]).

Definition requestOrReject {A} (e : Event) (answer : History -> string + A)
  : M A :=
  fun h => (answer h, h ++ [e]).

Declare Scope async_scope.
Delimit Scope async_scope with async.
Notation "x <- m ;; k" := (bind m (fun x => k))
  (at level 61, m at next level, right associativity) : async_scope.
Notation "m ;;; k" := (bind m (fun _ => k))
  (at level 61, right associativity) : async_scope.
Local Open Scope async_scope.

(** Early [return] in the middle of a function body. *)
Inductive Flow (R A : Type) :=
| Return (r : R)
| Continue (a : A).
Arguments Return {R A} r.
Arguments Continue {R A} a.

(* ================================================================= *)
(** ** The enhanced script *)

Definition nl : string := String (ascii_of_nat 10) EmptyString.

(** The payload of [saveCustomer]. *)
Definition saveCustomerBody (outId outCode websiteValue : string) : string :=
  nl ++ "    <customer>" ++ nl ++
  "      <CustomerNumber>" ++ nl ++
  "        <ID><Value>" ++ outId ++ "</Value><Valid>true</Valid></ID>" ++ nl ++
  "        <Code><Value>" ++ outCode ++ "</Value><Valid>true</Valid></Code>"
  ++ nl ++
  "      </CustomerNumber>" ++ nl ++
  "      <WebSite>" ++ nl ++
  "        <Value>" ++ websiteValue ++ "</Value>" ++ nl ++
  "        <Valid>true</Valid>" ++ nl ++
  "      </WebSite>" ++ nl ++
  "    </customer>".

(** [response && response.toLowerCase().includes('savecustomerresult')] *)
Definition saveSucceeded (response : string) : bool :=
  negb (isEmpty response) &&
  includes "savecustomerresult" (toLowerCase response).

(** The three values [saveCustomerWebsite] puts into the payload. *)
Definition saveOutId (customerId : string) : string :=
  if isBlank customerId then "0" else customerId.

Definition saveOutCode (customerCode : string) : string :=
  if isBlank customerCode then "" else customerCode.

Definition badDomains : list string :=
  ["facebook.com"; "linkedin.com"; "twitter.com"; "yelp.com";
   "yellowpages.com"; "bbb.org"].

(** An entry of [scored]. *)
Module Scored.
Record t := { url : string; title : string; score : Z }.
End Scored.

Definition scoreItem (item : Item.t) : Scored.t :=
  let url := Item.link item in
  let title := toLowerCase (orEmpty (Item.title item)) in
  let snippet := toLowerCase (orEmpty (Item.snippet item)) in
  let score := 0%Z in
  let score := if includes ".com" url then (score + 10)%Z else score in
  let score :=
    if includes "official" title || includes "home" title
    then (score + 5)%Z else score in
  let score :=
    if includes "official website" snippet then (score + 5)%Z else score in
  let score :=
    if List.existsb (fun bad => includes bad url) badDomains
    then (score - 20)%Z else score in
  {| Scored.url := url; Scored.title := title; Scored.score := score |}.

(** [scored.sort((a, b) => b.score - a.score)]: the sort of the language
    is stable, so its result is the one of a stable insertion sort. *)
Fixpoint insertByScore (x : Scored.t) (l : list Scored.t) : list Scored.t :=
  match l with
  | [] => [x]
  | y :: rest =>
      if (Scored.score x <? Scored.score y)%Z
      then y :: insertByScore x rest
      else x :: l
  end.

Fixpoint sortByScore (l : list Scored.t) : list Scored.t :=
  match l with
  | [] => []
  | x :: rest => insertByScore x (sortByScore rest)
  end.

Section Enhanced.
Context {platform : Platform}.
Variable CONFIG : Config.
Variable env : Env.

(** *** Directory client *)

Definition getCustomer (customerCode : string) : M Customer.t :=
  requestOrReject (GetCustomer customerCode)
                  (fun h => directoryCustomer env h customerCode).

Definition saveCustomerWebsite (customerId customerCode websiteUrl : string)
  : M bool :=
  let outId := saveOutId customerId in
  let outCode := saveOutCode customerCode in
  let normalizedUrl := toLowerCase websiteUrl in
  let body := saveCustomerBody outId outCode normalizedUrl in
  response <- requestOrReject (SaveCustomer body)
                              (fun h => directorySave env h body) ;;
  ret (saveSucceeded response).

Definition question (q : string) : M string :=
  request (Question q) (fun h => promptAnswer env h q).

(** *** Tier 1 *)

Definition checkDomainExists (domain : string) : M bool :=
  let bareHost := stripWww domain in
  request (DnsResolve bareHost) (fun h => dnsResolves env h bareHost).

Definition checkWebsiteResponds (domain : string) : M bool :=
  request (HttpHead domain) (fun h => httpResponds env h domain).

Definition guessCandidate (pattern : string) : Cand.t :=
  {| Cand.url := pattern; Cand.confidence := high;
     Cand.source := "domain_guess"; Cand.allResults := [] |}.

Fixpoint tryPatterns (patterns : list string) : M (option Cand.t) :=
  match patterns with
  | [] => ret None
  | pattern :: rest =>
      exists_ <- checkDomainExists pattern ;;
      if negb exists_ then tryPatterns rest
      else
        responds <- checkWebsiteResponds pattern ;;
        if responds then ret (Some (guessCandidate pattern))
        else tryPatterns rest
  end.

Definition guessDomain (companyName city : string) : M (option Cand.t) :=
  request (Invoke DomainGuessing) (fun _ => tt) ;;;
  if negb (enableDomainGuessing CONFIG) then ret None
  else tryPatterns (generateDomainPatterns CONFIG companyName (Some city)).

(** *** Tier 2 *)

(** The handler of the search response, from the parsed [json.items]. *)
Definition googleResult (items : list Item.t) : option Cand.t :=
  match items with
  | [] => None
  | _ :: _ =>
      let scored := sortByScore (map scoreItem items) in
      match scored with
      | [] => None
      | top :: _ =>
          if (Scored.score top <? 0)%Z then None
          else
            match URL_hostname (Scored.url top) with
            | Some hostname =>
                Some {| Cand.url := normalizeDomain CONFIG hostname;
                        Cand.confidence :=
                          if (10 <=? Scored.score top)%Z then high else medium;
                        Cand.source := "google_cse";
                        Cand.allResults := map Scored.url scored |}
            | None => None
            end
      end
  end.

Definition searchGoogleCSE (query : string) : M (option Cand.t) :=
  request (Invoke GoogleSearch) (fun _ => tt) ;;;
  if negb (enableGoogleSearch CONFIG) || isEmpty (googleCseKey CONFIG)
     || isEmpty (googleCx CONFIG)
  then ret None
  else
    items <- request (GoogleRequest query) (fun h => googleItems env h query) ;;
    match items with
    | Some items => ret (googleResult items)
    | None => ret None
    end.

(** *** Tier 3 *)

Definition openaiResult (content : string) : option Cand.t :=
  let content := trim content in
  if String.eqb content "NOT_FOUND" || includes "NOT_FOUND" content
  then None
  else Some {| Cand.url := normalizeDomain CONFIG content;
               Cand.confidence := medium;
               Cand.source := "openai"; Cand.allResults := [] |}.

Definition searchWithOpenAI (companyName city state phone : string)
  : M (option Cand.t) :=
  request (Invoke OpenAI) (fun _ => tt) ;;;
  if negb (enableOpenAI CONFIG) || isEmpty (openaiKey CONFIG) then ret None
  else
    content <- request (OpenAIRequest companyName city state phone)
                 (fun h => openaiContent env h companyName city state phone) ;;
    match content with
    | Some content => ret (openaiResult content)
    | None => ret None
    end.

(** *** All tiers *)

Definition findWebsite (customer : Customer.t) : M (option Cand.t) :=
  guessed <-
    (if enableDomainGuessing CONFIG
     then guessDomain (Customer.name customer) (Customer.city customer)
     else ret None) ;;
  match guessed with
  | Some _ => ret guessed
  | None =>
      googleResult <-
        (if enableGoogleSearch CONFIG
         then searchGoogleCSE
                (Customer.name customer ++ " " ++ Customer.city customer ++ " "
                 ++ Customer.state customer ++ " official website")
         else ret None) ;;
      match googleResult with
      | Some _ => ret googleResult
      | None =>
          openaiResult <-
            (if enableOpenAI CONFIG
             then searchWithOpenAI (Customer.name customer)
                    (Customer.city customer) (Customer.state customer)
                    (Customer.phone customer)
             else ret None) ;;
          match openaiResult with
          | Some _ => ret openaiResult
          | None => ret None
          end
      end
  end.

End Enhanced.

(** *** Batch records *)

(** [results] of [processCustomerList]. *)
Record Tally := {
  total : nat;
  updated : nat;
  skipped : nat;
  failed : nat
}.

(** An entry of [detailed]. *)
Module Detail.
Record t := {
  code : string;
  url : option string;
  error : option string;
  status : string
}.
End Detail.

(** The body of the loop after [processCustomer] has resolved. *)
Definition tallyStep (code : string) (res : Res.t)
  (results : Tally) (detailed : list Detail.t) : Tally * list Detail.t :=
  if Res.skipped res then
    ({| total := total results; updated := updated results;
        skipped := S (skipped results); failed := failed results |},
     detailed)
  else if Res.success res then
    ({| total := total results; updated := S (updated results);
        skipped := skipped results; failed := failed results |},
     if truthy (Res.url res)
     then detailed ++ [{| Detail.code := code; Detail.url := Res.url res;
                          Detail.error := None; Detail.status := "updated" |}]
     else detailed)
  else
    ({| total := total results; updated := updated results;
        skipped := skipped results; failed := S (failed results) |},
     detailed ++ [{| Detail.code := code; Detail.url := None;
                     Detail.error :=
                       Some (if truthy (Res.error res)
                             then orEmpty (Res.error res) else "unknown");
                     Detail.status := "failed" |}]).

Definition csvLine (item : Detail.t) : string :=
  Detail.code item ++ "," ++ Detail.status item ++ "," ++
  orEmpty (Detail.url item) ++ "," ++ orEmpty (Detail.error item).

(** The text [writeResultsCsv] writes to the output file. *)
Definition writeResultsCsv (detailed : list Detail.t) : string :=
  join nl ("code,status,url,error" :: map csvLine detailed).

(** The lines of that text. *)
Definition csvLines (detailed : list Detail.t) : list string :=
  "code,status,url,error" :: map csvLine detailed.

Section Batch.
Context {platform : Platform}.
Variable CONFIG : Config.
Variable env : Env.

(** *** [processCustomer], in the three parts of its body *)

(** The website that is already there. *)
Definition existingWebsiteStage (opts : Opts) (customer : Customer.t)
  : M (Flow Res.t unit) :=
  if negb (isBlank (Customer.currentWebsite customer)) && negb (force opts)
  then
    if nonInteractive opts then ret (Return skippedResult)
    else
      resp <- question env
                (nl ++ "Website exists: " ++ Customer.currentWebsite customer
                 ++ nl ++ "Choose: (o)verwrite, (e)nter new, (s)kip: ") ;;
      let resp := toLowerCase (trim resp) in
      if String.eqb resp "s" then ret (Return skippedResult)
      else if String.eqb resp "e" then
        manual <- question env "Enter website URL (or press Enter to skip): " ;;
        if isBlank manual then ret (Return skippedResult)
        else
          let normalized := normalizeDomain CONFIG manual in
          saved <- saveCustomerWebsite env (Customer.id customer)
                     (Customer.code customer) normalized ;;
          ret (Return (savedResult saved))
      else ret (Continue tt)
  else ret (Continue tt).

(** The website to save: the pinned one, or the one the tiers find. *)
Definition resolveStage (opts : Opts) (customer : Customer.t)
  : M (Flow Res.t (option string)) :=
  let websiteUrl := website opts in
  if negb (truthy websiteUrl) then
    result <- findWebsite CONFIG env customer ;;
    match result with
    | Some result =>
        if nonInteractive opts then
          if Confidence_eqb (Cand.confidence result) high || force opts
          then ret (Continue (Some (Cand.url result)))
          else ret (Return skippedResult)
        else
          choice <- question env
                      (nl ++
                       "Use this website? (y/n/e for enter manually): ") ;;
          let choice := toLowerCase (trim choice) in
          if String.eqb choice "y" then ret (Continue (Some (Cand.url result)))
          else if String.eqb choice "e" then
            manual <- question env
                        "Enter website URL (or press Enter to skip): " ;;
            if negb (isBlank manual) then ret (Continue (Some manual))
            else ret (Return skippedResult)
          else ret (Return skippedResult)
    | None =>
        if nonInteractive opts then ret (Return skippedResult)
        else
          manual <- question env
                      (nl ++ "No website found. Enter URL manually "
                       ++ "(or press Enter to skip): ") ;;
          if isBlank manual then ret (Return skippedResult)
          else ret (Continue (Some manual))
    end
  else ret (Continue websiteUrl).

(** Normalize, confirm, save. *)
Definition persistStage (opts : Opts) (customer : Customer.t)
  (websiteUrl : option string) : M Res.t :=
  if negb (truthy websiteUrl) || isBlank (orEmpty websiteUrl)
  then ret skippedResult
  else
    let normalizedUrl := normalizeDomain CONFIG (orEmpty websiteUrl) in
    proceed <-
      (if negb (nonInteractive opts) && negb (autoConfirm opts) then
         confirm <- question env "Confirm save? (y/n): " ;;
         ret (String.eqb (toLowerCase (trim confirm)) "y")
       else ret true) ;;
    if negb proceed then ret skippedResult
    else
      saved <- saveCustomerWebsite env (Customer.id customer)
                 (Customer.code customer) normalizedUrl ;;
      if saved then ret (updatedResult normalizedUrl)
      else ret (savedResult false).

Definition processCustomer (customerCode : string) (opts : Opts) : M Res.t :=
  tryCatch
    (customer <- getCustomer env customerCode ;;
     existing <- existingWebsiteStage opts customer ;;
     match existing with
     | Return r => ret r
     | Continue _ =>
         resolved <- resolveStage opts customer ;;
         match resolved with
         | Return r => ret r
         | Continue websiteUrl => persistStage opts customer websiteUrl
         end
     end)
    (fun message => ret (errorResult message)).

(** *** [processCustomerList] *)

Fixpoint processRows (opts : Opts) (items : list Row)
  (results : Tally) (detailed : list Detail.t)
  : M (Tally * list Detail.t) :=
  match items with
  | [] => ret (results, detailed)
  | item :: rest =>
      let code := rowCode item in
      res <- processCustomer code
               {| nonInteractive := nonInteractive opts;
                  website := rowWebsite item;
                  force := force opts;
                  autoConfirm := autoConfirm opts |} ;;
      let (results, detailed) := tallyStep code res results detailed in
      processRows opts rest results detailed
  end.

Definition processCustomerList (customerCodes : list Row) (opts : Opts)
  : M (Tally * list Detail.t) :=
  processRows opts customerCodes
    {| total := List.length customerCodes;
       updated := 0; skipped := 0; failed := 0 |}
    [].

End Batch.

(* ================================================================= *)
(** ** The TypeScript sibling (src/websites.ts)

    Same directory client and prompts; no tiers, the [www.] prefix always
    forced, an optional readline interface [rl], and a prompt between the
    records of an interactive list. *)

Module WebsitesTs.

Section Ts.
Context {platform : Platform}.
Variable env : Env.
Variable rl : bool.

Definition normalizeDomain (url : string) : string :=
  if isEmpty url then ""
  else
    let url := trim url in
    match URL_hostname (urlTarget url) with
    | Some host =>
        if negb (startsWith "www." host) then "www." ++ host else host
    | None =>
        let url := beforeSlash (stripSchemeWww url) in
        if negb (startsWithCI "www." url) then "www." ++ url else url
    end.

Definition saveCustomerWebsite (customerId customerCode websiteUrl : string)
  : M bool :=
  let body := saveCustomerBody customerId customerCode websiteUrl in
  response <- requestOrReject (SaveCustomer body)
                              (fun h => directorySave env h body) ;;
  ret (saveSucceeded response).

(** [if (!rl) throw new Error(...)] and then the prompt. *)
Definition ask (q : string) : M string :=
  if negb rl then throw "readline required for interactive prompts"
  else question env q.

Definition overwriteStage (opts : Opts) (customer : Customer.t)
  : M (Flow Res.t unit) :=
  if negb (isBlank (Customer.currentWebsite customer)) && negb (force opts)
  then
    if nonInteractive opts then ret (Return skippedResult)
    else
      overwrite <- ask "Website already exists. Overwrite? (y/n): " ;;
      if negb (String.eqb (toLowerCase overwrite) "y")
      then ret (Return skippedResult)
      else ret (Continue tt)
  else ret (Continue tt).

Definition websiteStage (opts : Opts) : M (Flow Res.t (option string)) :=
  let websiteUrl := website opts in
  if negb (truthy websiteUrl) then
    if nonInteractive opts then ret (Return skippedResult)
    else
      entered <- ask "Enter website URL (or press Enter to skip): " ;;
      ret (Continue (Some entered))
  else ret (Continue websiteUrl).

Definition saveStage (customerCode : string) (opts : Opts)
  (customer : Customer.t) (websiteUrl : option string) : M Res.t :=
  if negb (truthy websiteUrl) || isBlank (orEmpty websiteUrl)
  then ret skippedResult
  else
    let normalizedUrl := normalizeDomain (orEmpty websiteUrl) in
    proceed <-
      (if negb (nonInteractive opts) then
         confirm <- ask "Save this website? (y/n): " ;;
         ret (String.eqb (toLowerCase confirm) "y")
       else ret true) ;;
    if negb proceed then ret skippedResult
    else
      let outId :=
        if isBlank (Customer.id customer) then "0" else Customer.id customer in
      let outCode :=
        if isBlank (Customer.code customer) then customerCode
        else Customer.code customer in
      saved <- saveCustomerWebsite outId outCode normalizedUrl ;;
      ret (savedResult saved).

Definition processCustomer (customerCode : string) (opts : Opts) : M Res.t :=
  tryCatch
    (customer <- getCustomer env customerCode ;;
     existing <- overwriteStage opts customer ;;
     match existing with
     | Return r => ret r
     | Continue _ =>
         chosen <- websiteStage opts ;;
         match chosen with
         | Return r => ret r
         | Continue websiteUrl =>
             saveStage customerCode opts customer websiteUrl
         end
     end)
    (fun message => ret (errorResult message)).

Definition count (res : Res.t) (results : Tally) : Tally :=
  if Res.skipped res then
    {| total := total results; updated := updated results;
       skipped := S (skipped results); failed := failed results |}
  else if Res.success res then
    {| total := total results; updated := S (updated results);
       skipped := skipped results; failed := failed results |}
  else
    {| total := total results; updated := updated results;
       skipped := skipped results; failed := S (failed results) |}.

(** The loop; [rest = []] is [i = customerCodes.length - 1]. *)
Fixpoint processRows (opts : Opts) (items : list Row) (results : Tally)
  : M Tally :=
  match items with
  | [] => ret results
  | item :: rest =>
      res <- processCustomer (rowCode item)
               {| nonInteractive := nonInteractive opts;
                  website := rowWebsite item;
                  force := force opts;
                  autoConfirm := false |} ;;
      let results := count res results in
      match rest with
      | [] => ret results
      | _ :: _ =>
          if negb (nonInteractive opts) then
            cont <- ask (nl ++ "Continue to next customer? (y/n): ") ;;
            if negb (String.eqb (toLowerCase cont) "y") then ret results
            else processRows opts rest results
          else processRows opts rest results
      end
  end.

(** [results] when the function returns. *)
Definition processCustomerList (customerCodes : list Row) (opts : Opts)
  : M Tally :=
  processRows opts customerCodes
    {| total := List.length customerCodes;
       updated := 0; skipped := 0; failed := 0 |}.

End Ts.

End WebsitesTs.

(* ================================================================= *)
(** ** Concrete configurations and worlds

    Used where a statement is evaluated on a concrete run. *)

Definition configWww (b : bool) : Config :=
  {| forceWww := b; googleCseKey := ""; googleCx := ""; openaiKey := "";
     enableDomainGuessing := true; enableGoogleSearch := true;
     enableOpenAI := false |}.

Fixpoint countQuestions (h : History) : nat :=
  match h with
  | [] => 0
  | Question _ :: rest => S (countQuestions rest)
  | _ :: rest => countQuestions rest
  end.

(** A world with fixed answers: one directory record (or one error) for
    every lookup, one reply to every save, one search response, one
    completion, no name that resolves, and the operator's answers in the
    order of the prompts. *)
Definition scriptedEnv (customer : string + Customer.t)
  (saveResponse : string + string)
  (items : option (list Item.t)) (content : option string)
  (answers : list string) : Env :=
  {| dnsResolves := fun _ _ => false;
     httpResponds := fun _ _ => false;
     googleItems := fun _ _ => items;
     openaiContent := fun _ _ _ _ _ => content;
     directoryCustomer := fun _ _ => customer;
     directorySave := fun _ _ => saveResponse;
     promptAnswer := fun h _ => nth (countQuestions h) answers "" |}.

Definition customerWith (id code currentWebsite : string) : Customer.t :=
  {| Customer.id := id; Customer.code := code;
     Customer.name := "Acme Inc"; Customer.city := "Springfield";
     Customer.state := "IL"; Customer.phone := "";
     Customer.currentWebsite := currentWebsite |}.

Definition unattended (forced : bool) : Opts :=
  {| nonInteractive := true; website := None; force := forced;
     autoConfirm := false |}.

Definition interactive : Opts :=
  {| nonInteractive := false; website := None; force := false;
     autoConfirm := false |}.

Definition configGoogleOnly : Config :=
  {| forceWww := true; googleCseKey := "key"; googleCx := "cx";
     openaiKey := "";
     enableDomainGuessing := false; enableGoogleSearch := true;
     enableOpenAI := false |}.

Definition configOpenAIOnly : Config :=
  {| forceWww := true; googleCseKey := ""; googleCx := "";
     openaiKey := "sk";
     enableDomainGuessing := false; enableGoogleSearch := false;
     enableOpenAI := true |}.

Definition searchItem (link title snippet : string) : Item.t :=
  {| Item.link := link; Item.title := Some title;
     Item.snippet := Some snippet |}.

Definition pinned (w : string) : Opts :=
  {| nonInteractive := true; website := Some w; force := false;
     autoConfirm := false |}.

Definition okSave : string + string := inr "<saveCustomerResult/>".

(** A world in which exactly one bare host resolves and answers. *)
Definition liveEnv (live : string) (customer : Customer.t) : Env :=
  {| dnsResolves := fun _ bareHost => String.eqb bareHost live;
     httpResponds := fun _ domain => String.eqb (stripWww domain) live;
     googleItems := fun _ _ => None;
     openaiContent := fun _ _ _ _ _ => None;
     directoryCustomer := fun _ _ => inr customer;
     directorySave := fun _ _ => okSave;
     promptAnswer := fun _ _ => "" |}.

(* ================================================================= *)
(** ** Vocabulary of the statements *)

Definition notSlash (c : ascii) : bool := negb (Ascii.eqb c "/").

(** Descending by score. *)
Definition byScoreDesc (a b : Scored.t) : Prop :=
  (Scored.score b <= Scored.score a)%Z.

Definition hasScore (k : Z) (s : Scored.t) : bool :=
  (Scored.score s =? k)%Z.

(** The tiers that were invoked, in order. *)
Fixpoint invocations (h : History) : list Tier :=
  match h with
  | [] => []
  | Invoke t :: rest => t :: invocations rest
  | _ :: rest => invocations rest
  end.

Definition enabled (CONFIG : Config) (t : Tier) : bool :=
  match t with
  | DomainGuessing => enableDomainGuessing CONFIG
  | GoogleSearch => enableGoogleSearch CONFIG
  | OpenAI => enableOpenAI CONFIG
  end.

Section CascadeSpec.
Context {platform : Platform}.
Variable CONFIG : Config.
Variable env : Env.

(** The call [findWebsite] makes for a tier. *)
Definition tierCall (t : Tier) (customer : Customer.t) : M (option Cand.t) :=
  match t with
  | DomainGuessing =>
      guessDomain CONFIG env (Customer.name customer) (Customer.city customer)
  | GoogleSearch =>
      searchGoogleCSE CONFIG env
        (Customer.name customer ++ " " ++ Customer.city customer ++ " "
         ++ Customer.state customer ++ " official website")
  | OpenAI =>
      searchWithOpenAI CONFIG env (Customer.name customer)
        (Customer.city customer) (Customer.state customer)
        (Customer.phone customer)
  end.

(** [Cascade customer tiers h tried result h']: going through [tiers]
    from history [h], the tiers [tried] are invoked, one after the other,
    and the run ends in history [h'] with [result].  A disabled tier is
    passed over; an enabled tier is invoked; when it returns a candidate
    the run ends there, and when it returns null the run goes on with the
    tiers that remain; with no tier left the result is null. *)
Inductive Cascade (customer : Customer.t)
  : list Tier -> History -> list Tier -> option Cand.t -> History -> Prop :=
| Cascade_exhausted h :
    Cascade customer [] h [] None h
| Cascade_disabled t rest h tried result h' :
    enabled CONFIG t = false ->
    Cascade customer rest h tried result h' ->
    Cascade customer (t :: rest) h tried result h'
| Cascade_found t rest h cand h1 :
    enabled CONFIG t = true ->
    tierCall t customer h = (inr (Some cand), h1) ->
    Cascade customer (t :: rest) h [t] (Some cand) h1
| Cascade_null t rest h h1 tried result h' :
    enabled CONFIG t = true ->
    tierCall t customer h = (inr None, h1) ->
    Cascade customer rest h1 tried result h' ->
    Cascade customer (t :: rest) h (t :: tried) result h'.

End CascadeSpec.


(** The [saveCustomer] payloads among the events of a history. *)
Fixpoint saves (h : History) : list string :=
  match h with
  | [] => []
  | SaveCustomer body :: rest => body :: saves rest
  | _ :: rest => saves rest
  end.

(* ================================================================= *)
(** ** Batch input, response decoding and the command line *)

Definition lf : ascii := ascii_of_nat 10.
Definition cr : ascii := ascii_of_nat 13.

(** [text.split(/\r?\n/)]: a line feed, with the carriage return before
    it when there is one, separates two lines. *)
Fixpoint splitLines (s : string) : list string :=
  match s with
  | EmptyString => [EmptyString]
  | String c s' =>
      if Ascii.eqb c lf then EmptyString :: splitLines s'
      else
        match s' with
        | String d s'' =>
            if Ascii.eqb c cr && Ascii.eqb d lf
            then EmptyString :: splitLines s''
            else
              match splitLines s' with
              | l :: ls => String c l :: ls
              | [] => [String c EmptyString]
              end
        | EmptyString => [String c EmptyString]
        end
  end.

(** [line.split(',')] *)
Fixpoint splitCommas (s : string) : list string :=
  match s with
  | EmptyString => [EmptyString]
  | String c s' =>
      if Ascii.eqb c ","
      then EmptyString :: splitCommas s'
      else
        match splitCommas s' with
        | l :: ls => String c l :: ls
        | [] => [String c EmptyString]
        end
  end.

(** [l && !l.startsWith('#')] *)
Definition isDataLine (l : string) : bool :=
  negb (isEmpty l) && negb (startsWith "#" l).

(** A line of the input file as a row. *)
Definition lineRow (line : string) : Row :=
  match map trim (splitCommas line) with
  | [] => Bare EmptyString
  | [code] => Bare code
  | code :: website :: _ => Pinned code website
  end.

(** [readCsvFile], from the text of the file. *)
Definition readCsvFile (text : string) : list Row :=
  map lineRow (List.filter isDataLine (map trim (splitLines text))).





(** A property of the object [parseArgs] returns: [true] or a string. *)
Inductive ArgValue :=
| Flag
| Value (v : string).

(** The loop of [parseArgs] over the remaining arguments; the result lists
    the assignments [args[key] = ...] in the order they are made. *)
Fixpoint parseTokens (tokens : list string) : list (string * ArgValue) :=
  match tokens with
  | [] => []
  | a :: rest =>
      if startsWith "--" a then
        match rest with
        | next :: rest' =>
            if isEmpty next || startsWith "--" next
            then (drop 2 a, Flag) :: parseTokens rest
            else (drop 2 a, Value next) :: parseTokens rest'
        | [] => [(drop 2 a, Flag)]
        end
      else parseTokens rest
  end.

Definition parseArgs (argv : list string) : list (string * ArgValue) :=
  parseTokens (skipn 2 argv).

(** [args[key]]: the last assignment to [key]. *)
Fixpoint argLookup (key : string) (args : list (string * ArgValue))
  : option ArgValue :=
  match args with
  | [] => None
  | (k, v) :: rest =>
      match argLookup key rest with
      | Some later => Some later
      | None => if String.eqb k key then Some v else None
      end
  end.

(* ================================================================= *)
(** ** More vocabulary of the statements *)

(** Kinds of events. *)
Definition isSave (e : Event) : bool :=
  match e with SaveCustomer _ => true | _ => false end.

Definition isGet (e : Event) : bool :=
  match e with GetCustomer _ => true | _ => false end.

Definition isQuestion (e : Event) : bool :=
  match e with Question _ => true | _ => false end.

Definition isDns (e : Event) : bool :=
  match e with DnsResolve _ => true | _ => false end.

Definition isHttp (e : Event) : bool :=
  match e with HttpHead _ => true | _ => false end.

Definition isSearchRequest (e : Event) : bool :=
  match e with GoogleRequest _ => true | _ => false end.

Definition isAiRequest (e : Event) : bool :=
  match e with OpenAIRequest _ _ _ _ => true | _ => false end.

(** What the tiers do: being invoked, probing, searching, completing. *)
Definition isTierEvent (e : Event) : bool :=
  match e with
  | Invoke _ | DnsResolve _ | HttpHead _ | GoogleRequest _
  | OpenAIRequest _ _ _ _ => true
  | _ => false
  end.

Definition countEvents (p : Event -> bool) (h : History) : nat :=
  List.length (List.filter p h).

(** The codes of the records fetched, in order. *)
Fixpoint fetched (h : History) : list string :=
  match h with
  | [] => []
  | GetCustomer c :: rest => c :: fetched rest
  | _ :: rest => fetched rest
  end.

(** [extends allowed m]: whatever the history, [m] only appends events,
    and only events that [allowed] admits. *)
Definition extends {A : Type} (allowed : Event -> bool) (m : M A) : Prop :=
  forall h, exists d,
    snd (m h) = h ++ d /\ List.forallb allowed d = true.

(** The events [findWebsite] can add, given the keys. *)
Definition pipelineEvent (CONFIG : Config) (e : Event) : bool :=
  match e with
  | Invoke _ | DnsResolve _ | HttpHead _ => true
  | GoogleRequest _ =>
      negb (isEmpty (googleCseKey CONFIG)) && negb (isEmpty (googleCx CONFIG))
  | OpenAIRequest _ _ _ _ => negb (isEmpty (openaiKey CONFIG))
  | _ => false
  end.

(** From [h] to [h'] nothing was sent to be saved. *)
Definition quiet (h h' : History) : Prop := saves h' = saves h.

(** From [h] to [h'] one payload was sent to be saved, as the last
    event. *)
Definition savedLast (h h' : History) (body : string) : Prop :=
  exists before, h' = before ++ [SaveCustomer body] /\ saves before = saves h.

(** Characters of a candidate hostname. *)
Definition isLabelChar (c : ascii) : bool :=
  isLower c || isDigit c || Ascii.eqb c "-".

Definition isHostChar (c : ascii) : bool :=
  isLabelChar c || Ascii.eqb c ".".

(** The prefix policy, as the pattern generator applies it. *)
Definition prefixed (CONFIG : Config) (p : string) : string :=
  if forceWww CONFIG && negb (startsWith "www." p)
  then ("www." ++ p)%string else p.

(** The array [patterns] of [generateDomainPatterns], before duplicates
    are removed and the prefix is added. *)
Definition rawPatterns (companyName : string) (city : option string)
  : list string :=
  let cleaned := cleanCompanyName companyName in
  let noSpaces := filter (fun c => negb (isSpace c)) cleaned in
  let hyphenated := hyphenate false cleaned in
  let noNumbers := filter (fun c => negb (isDigit c)) noSpaces in
  let patterns :=
    [noSpaces ++ ".com"; hyphenated ++ ".com"; noNumbers ++ ".com"]%string in
  if truthy city then
    let cityClean :=
      filter (fun c => isLower c || isDigit c) (toLowerCase (orEmpty city)) in
    patterns ++ [(cityClean ++ noSpaces ++ ".com")%string;
                 (noSpaces ++ cityClean ++ ".com")%string]
  else patterns.



(** [\r\n] *)
Definition crlf : string := String cr (String lf EmptyString).

Definition notBreak (a : ascii) : bool :=
  negb (Ascii.eqb a lf) && negb (Ascii.eqb a cr).

(** A character of a field of the input file: no line break, no comma. *)
Definition isFieldChar (a : ascii) : bool :=
  notBreak a && negb (Ascii.eqb a ",").

(** A website as it stands behind the comma of a line: trimmed, without
    comma or line break; it may be empty. *)
Definition isPlainField (w : string) : bool :=
  String.eqb (trim w) w && Str.forallb isFieldChar w.

(** A code as it stands on a line of the input file: a field that is not
    empty and does not start a comment. *)
Definition isPlainCode (c : string) : bool :=
  negb (isEmpty c) && negb (startsWith "#" c) && isPlainField c.

Definition isPlainRow (r : Row) : bool :=
  match r with
  | Bare c => isPlainCode c
  | Pinned c w => isPlainCode c && isPlainField w
  end.

(** The line of the input file for a row. *)
Definition rowLine (r : Row) : string :=
  match r with
  | Bare c => c
  | Pinned c w => (c ++ "," ++ w)%string
  end.



(** An option as [parseArgs] can return it: a value is not empty and
    does not look like an option. *)
Definition isOption (kv : string * ArgValue) : bool :=
  match snd kv with
  | Flag => true
  | Value v => negb (isEmpty v) && negb (startsWith "--" v)
  end.

(** The record and the search response of the concrete runs. *)
Definition acme : Customer.t := customerWith "1" "AC01" "".

Definition acmeItems : list Item.t :=
  [searchItem "https://www.facebook.com/acme" "Acme | Home" "";
   searchItem "https://acme.org/" "Acme" "the official website of Acme";
   searchItem "https://Acme.com/about" "About" ""].

(** A world in which nothing resolves and the directory accepts. *)
Definition quietEnv (customer : string + Customer.t) : Env :=
  scriptedEnv customer okSave None None [].

(* ================================================================= *)
(** ** Facts about strings *)

Local Open Scope string_scope.

Section StringFacts.


Lemma lower_slash (c : ascii) :
  Ascii.eqb c "/" = false -> Ascii.eqb "/" (lower c) = false.
Proof. destruct c as [[] [] [] [] [] [] [] []]; simpl; congruence. Qed.


Lemma dropWhile_length (p : ascii -> bool) (s : string) :
  String.length (dropWhile p s) <= String.length s.
Proof.
  induction s as [|c s IH]; simpl; [lia|].
  destruct (p c); simpl; lia.
Qed.

Lemma dropWhile_same_length (p : ascii -> bool) (s : string) :
  String.length (dropWhile p s) = String.length s -> dropWhile p s = s.
Proof.
  destruct s as [|c s]; simpl; [reflexivity|].
  destruct (p c); [|reflexivity].
  intros H. pose proof (dropWhile_length p s). lia.
Qed.

Lemma dropWhileEnd_length (p : ascii -> bool) (s : string) :
  String.length (dropWhileEnd p s) <= String.length s.
Proof.
  induction s as [|c s IH]; simpl; [lia|].
  destruct (dropWhileEnd p s); [destruct (p c)|]; simpl in *; lia.
Qed.

Lemma dropWhileEnd_same_length (p : ascii -> bool) (s : string) :
  String.length (dropWhileEnd p s) = String.length s -> dropWhileEnd p s = s.
Proof.
  induction s as [|c s IH]; simpl; [reflexivity|].
  pose proof (dropWhileEnd_length p s) as L.
  destruct (dropWhileEnd p s) as [|d t] eqn:E.
  - destruct (p c); simpl; intros H.
    + lia.
    + destruct s; [reflexivity|simpl in *; lia].
  - simpl in *. intros H. f_equal. apply IH. lia.
Qed.

Lemma dropWhileEnd_cons (p : ascii -> bool) (c : ascii) (s : string) :
  p c = false -> dropWhileEnd p (String c s) = String c (dropWhileEnd p s).
Proof.
  intros H. simpl. rewrite H. destruct (dropWhileEnd p s); reflexivity.
Qed.

(** A string that [trim] leaves alone has no white space at either end. *)
Lemma trim_fixed (s : string) :
  trim s = s -> trimStart s = s /\ trimEnd s = s.
Proof.
  unfold trim, trimStart, trimEnd. intros H.
  pose proof (dropWhile_length isSpace s) as L1.
  pose proof (dropWhileEnd_length isSpace (dropWhile isSpace s)) as L2.
  assert (E : dropWhile isSpace s = s).
  { apply dropWhile_same_length. rewrite H in L2. lia. }
  split; [exact E|]. rewrite E in H. exact H.
Qed.


Lemma takeWhile_idem (p : ascii -> bool) (s : string) :
  takeWhile p (takeWhile p s) = takeWhile p s.
Proof.
  induction s as [|c s IH]; simpl; [reflexivity|].
  destruct (p c) eqn:E; simpl; [rewrite E, IH|]; reflexivity.
Qed.

Lemma takeWhile_forallb (p : ascii -> bool) (s : string) :
  Str.forallb p (takeWhile p s) = true.
Proof.
  induction s as [|c s IH]; simpl; [reflexivity|].
  destruct (p c) eqn:E; simpl; [rewrite E, IH|]; reflexivity.
Qed.







End StringFacts.

(* ================================================================= *)
(** ** Domain normalization: idempotence *)

Section NormalizerFacts.
Context {platform : Platform}.
Variable CONFIG : Config.


Lemma normalizeDomain_fallback (x : string) :
  isEmpty x = false ->
  URL_hostname (urlTarget (trim x)) = None ->
  normalizeDomain CONFIG x = let r := beforeSlash (stripSchemeWww (trim x)) in
        if forceWww CONFIG && negb (startsWithCI "www." r)
        then "www." ++ r else r.
Proof. intros E H. unfold normalizeDomain. rewrite E, H. reflexivity. Qed.



(** The TypeScript sibling is the enhanced normalizer with the prefix
    forced. *)
Lemma WebsitesTs_normalizeDomain_eq (x : string) :
  forceWww CONFIG = true ->
  WebsitesTs.normalizeDomain x = normalizeDomain CONFIG x.
Proof.
  intros F. unfold WebsitesTs.normalizeDomain, normalizeDomain.
  rewrite F. reflexivity.
Qed.


End NormalizerFacts.

(** *** Inputs on which the second pass differs from the first *)


(** The URL path is not safe either: an opaque host keeps its case in the
    first pass and loses it in the second. *)
Example normalizeDomain_parsed_not_idempotent :
  normalizeDomain (configWww true) "httpx://www.A" = "www.A" /\
  normalizeDomain (configWww true) "www.A" = "www.a".
Proof. split; reflexivity. Qed.


(* ================================================================= *)
(** ** Pattern generation *)

Example cleanCompanyName_4print :
  cleanCompanyName "4Print Wraps, Inc." = "4print wraps".
Proof. reflexivity. Qed.

(** An earlier alternative that is not followed by a word boundary gives
    way to a later one; a suffix inside a word stays. *)
Example cleanCompanyName_alternatives :
  cleanCompanyName "The Acme Corporation of L.L.C. Colas" = "acme  of  colas".
Proof. reflexivity. Qed.

Section PatternFacts.
Variable CONFIG : Config.

Lemma unique_cons (x : string) (l : list string) :
  unique (x :: l) = x :: uniqueFrom [x] l.
Proof. reflexivity. Qed.

(** C10.  [generateDomainPatterns] never returns the empty list; when the
    name cleans to the empty string and there is no city, it returns the
    one candidate [www..com] under the default prefix policy. *)
Theorem generateDomainPatterns_nonempty (companyName : string)
  (city : option string) :
  generateDomainPatterns CONFIG companyName city <> []
  /\ (cleanCompanyName companyName = "" ->
      truthy city = false ->
      forceWww CONFIG = true ->
      generateDomainPatterns CONFIG companyName city = ["www..com"]).
Proof.
  unfold generateDomainPatterns. split.
  - destruct (truthy city); cbn [app]; rewrite unique_cons;
      cbn [map]; discriminate.
  - intros C T F. rewrite C, T, F. reflexivity.
Qed.

End PatternFacts.

Lemma generateDomainPatterns_nonempty_witness :
  cleanCompanyName "The Company, LLC" = "" /\
  generateDomainPatterns (defaultConfig "" "" "") "The Company, LLC" None
    = ["www..com"].
Proof.
  split; [reflexivity|].
  refine (proj2 (generateDomainPatterns_nonempty (defaultConfig "" "" "")
                   "The Company, LLC" None) _ _ _); reflexivity.
Defined.

(** C4, evaluated.  For the documented example the generator returns five
    distinct candidates, in this order; the hyphenated one is
    [www.4print-wraps.com], spaces replaced by hyphens, and
    [www.4-print-wraps.com] is not among them. *)
Theorem generateDomainPatterns_4print (cseKey cx aiKey : string) :
  let patterns :=
    generateDomainPatterns (defaultConfig cseKey cx aiKey)
      "4Print Wraps, Inc." (Some "Glenburnie") in
  patterns = ["www.4printwraps.com"; "www.4print-wraps.com";
              "www.printwraps.com"; "www.glenburnie4printwraps.com";
              "www.4printwrapsglenburnie.com"]
  /\ NoDup patterns
  /\ ~ In "www.4-print-wraps.com" patterns.
Proof.
  assert (E : generateDomainPatterns (defaultConfig cseKey cx aiKey)
                "4Print Wraps, Inc." (Some "Glenburnie")
              = ["www.4printwraps.com"; "www.4print-wraps.com";
                 "www.printwraps.com"; "www.glenburnie4printwraps.com";
                 "www.4printwrapsglenburnie.com"]) by reflexivity.
  cbv zeta. rewrite E. split; [reflexivity|]. split.
  - repeat constructor; cbn [In]; intros H;
      repeat (destruct H as [H|H]; [discriminate H|]); exact H.
  - cbn [In]. intros H.
    repeat (destruct H as [H|H]; [discriminate H|]). exact H.
Qed.

(* ================================================================= *)
(** ** Tier 2: scoring and ranking *)


Section RankingFacts.

Lemma insertByScore_perm (x : Scored.t) (l : list Scored.t) :
  Permutation (insertByScore x l) (x :: l).
Proof.
  induction l as [|y l IH]; cbn [insertByScore]; [apply Permutation_refl|].
  destruct (Scored.score x <? Scored.score y)%Z.
  - eapply perm_trans; [apply perm_skip, IH|apply perm_swap].
  - apply Permutation_refl.
Qed.

Lemma sortByScore_perm (l : list Scored.t) : Permutation (sortByScore l) l.
Proof.
  induction l as [|x l IH]; cbn [sortByScore]; [constructor|].
  eapply perm_trans; [apply insertByScore_perm|apply perm_skip, IH].
Qed.

Lemma insertByScore_sorted (x : Scored.t) (l : list Scored.t) :
  StronglySorted byScoreDesc l ->
  StronglySorted byScoreDesc (insertByScore x l).
Proof.
  induction 1 as [|y l S IH F]; cbn [insertByScore].
  - repeat constructor.
  - destruct (Scored.score x <? Scored.score y)%Z eqn:E.
    + constructor; [exact IH|].
      apply (Permutation_Forall (Permutation_sym (insertByScore_perm x l))).
      constructor; [|exact F].
      apply Z.ltb_lt in E. unfold byScoreDesc. lia.
    + apply Z.ltb_ge in E.
      constructor; [constructor; assumption|].
      constructor; [exact E|].
      eapply Forall_impl; [|exact F].
      unfold byScoreDesc. intros z Hz. lia.
Qed.

Lemma sortByScore_sorted (l : list Scored.t) :
  StronglySorted byScoreDesc (sortByScore l).
Proof.
  induction l as [|x l IH]; cbn [sortByScore]; [constructor|].
  apply insertByScore_sorted, IH.
Qed.

(** An inserted entry only moves past entries of strictly higher score. *)
Lemma insertByScore_stable (k : Z) (x : Scored.t) (l : list Scored.t) :
  List.filter (hasScore k) (insertByScore x l)
  = List.filter (hasScore k) (x :: l).
Proof.
  induction l as [|y l IH]; cbn [insertByScore]; [reflexivity|].
  destruct (Scored.score x <? Scored.score y)%Z eqn:E; [|reflexivity].
  apply Z.ltb_lt in E.
  cbn [List.filter] in *. rewrite IH. unfold hasScore.
  destruct (Scored.score x =? k)%Z eqn:Ex; [|reflexivity].
  apply Z.eqb_eq in Ex.
  replace (Scored.score y =? k)%Z with false; [reflexivity|].
  symmetry. apply Z.eqb_neq. lia.
Qed.

(** The ranking keeps the provider's order among equal scores. *)
Lemma sortByScore_stable (k : Z) (l : list Scored.t) :
  List.filter (hasScore k) (sortByScore l) = List.filter (hasScore k) l.
Proof.
  induction l as [|x l IH]; cbn [sortByScore]; [reflexivity|].
  rewrite insertByScore_stable. cbn [List.filter]. rewrite IH. reflexivity.
Qed.

Lemma scoreItem_score (item : Item.t) :
  Scored.score (scoreItem item)
  = (0
     + (if includes ".com" (Item.link item) then 10 else 0)
     + (if includes "official" (toLowerCase (orEmpty (Item.title item)))
           || includes "home" (toLowerCase (orEmpty (Item.title item)))
        then 5 else 0)
     + (if includes "official website"
             (toLowerCase (orEmpty (Item.snippet item)))
        then 5 else 0)
     - (if List.existsb (fun bad => includes bad (Item.link item)) badDomains
        then 20 else 0))%Z.
Proof.
  unfold scoreItem. cbn [Scored.score].
  destruct (includes ".com" (Item.link item));
    destruct (includes "official" (toLowerCase (orEmpty (Item.title item)))
              || includes "home" (toLowerCase (orEmpty (Item.title item))));
    destruct (includes "official website"
                (toLowerCase (orEmpty (Item.snippet item))));
    destruct (List.existsb (fun bad => includes bad (Item.link item))
                badDomains);
    reflexivity.
Qed.

End RankingFacts.

Section GoogleFacts.
Context {platform : Platform}.
Variable CONFIG : Config.

(** C5 (as amended).  Every result is scored from 0 with +10 for [.com]
    in the link, +5 for [official] or [home] in the lower-cased title, +5
    for [official website] in the lower-cased snippet and -20 for a link
    on the blocklist; the ranking is a permutation of the results, sorted
    by descending score, with equal scores in provider order.  For the
    top entry: a negative score gives null; otherwise, when the URL parser
    accepts the link, the normalized hostname is returned, [high] exactly
    when the score is at least 10 and [medium] otherwise, with all ranked
    links retained; when the parser rejects the link, null. *)
Theorem googleResult_ranked (items : list Item.t) :
  let scored := sortByScore (map scoreItem items) in
  (forall item,
      Scored.score (scoreItem item)
      = (0
         + (if includes ".com" (Item.link item) then 10 else 0)
         + (if includes "official" (toLowerCase (orEmpty (Item.title item)))
               || includes "home" (toLowerCase (orEmpty (Item.title item)))
            then 5 else 0)
         + (if includes "official website"
                 (toLowerCase (orEmpty (Item.snippet item)))
            then 5 else 0)
         - (if List.existsb (fun bad => includes bad (Item.link item))
                 badDomains
            then 20 else 0))%Z)
  /\ Permutation scored (map scoreItem items)
  /\ StronglySorted byScoreDesc scored
  /\ (forall k, List.filter (hasScore k) scored
                = List.filter (hasScore k) (map scoreItem items))
  /\ (forall top rest,
        scored = top :: rest ->
        ((Scored.score top < 0)%Z -> googleResult CONFIG items = None)
        /\ ((0 <= Scored.score top)%Z ->
            forall hostname,
              URL_hostname (Scored.url top) = Some hostname ->
              googleResult CONFIG items
              = Some {| Cand.url := normalizeDomain CONFIG hostname;
                        Cand.confidence :=
                          if (10 <=? Scored.score top)%Z
                          then high else medium;
                        Cand.source := "google_cse";
                        Cand.allResults := map Scored.url scored |})
        /\ ((0 <= Scored.score top)%Z ->
            URL_hostname (Scored.url top) = None ->
            googleResult CONFIG items = None)).
Proof.
  cbv zeta.
  split; [exact scoreItem_score|].
  split; [apply sortByScore_perm|].
  split; [apply sortByScore_sorted|].
  split; [intros k; apply sortByScore_stable|].
  intros top rest E. unfold googleResult.
  destruct items as [|i items']; [discriminate E|].
  rewrite E.
  repeat split.
  - intros H. apply Z.ltb_lt in H. rewrite H. reflexivity.
  - intros H hostname P. apply Z.ltb_ge in H. rewrite H, P. reflexivity.
  - intros H P. apply Z.ltb_ge in H. rewrite H, P. reflexivity.
Qed.

End GoogleFacts.

(** C5 (as stated) fails when the best link is not an absolute URL: its
    score is 10, not negative, and yet the tier returns null. *)
Lemma googleResult_unparseable_top :
  let items := [searchItem "example.com" "" ""] in
  map Scored.score (sortByScore (map scoreItem items)) = [10%Z]
  /\ URL_hostname "example.com" = None
  /\ googleResult (configWww true) items = None.
Proof. repeat split; reflexivity. Qed.

Lemma googleResult_ranked_witness :
  let items :=
    [searchItem "https://www.facebook.com/acme" "Acme | Home" "";
     searchItem "https://acme.org/" "Acme" "the official website of Acme";
     searchItem "https://Acme.com/about" "About" ""] in
  googleResult (configWww true) items
  = Some {| Cand.url := "www.acme.com"; Cand.confidence := high;
            Cand.source := "google_cse";
            Cand.allResults :=
              ["https://Acme.com/about"; "https://acme.org/";
               "https://www.facebook.com/acme"] |}.
Proof.
  cbv zeta.
  destruct (googleResult_ranked (configWww true)
              [searchItem "https://www.facebook.com/acme" "Acme | Home" "";
               searchItem "https://acme.org/" "Acme"
                 "the official website of Acme";
               searchItem "https://Acme.com/about" "About" ""])
    as (_ & _ & _ & _ & H).
  destruct (H (scoreItem (searchItem "https://Acme.com/about" "About" ""))
              [scoreItem (searchItem "https://acme.org/" "Acme"
                            "the official website of Acme");
               scoreItem (searchItem "https://www.facebook.com/acme"
                            "Acme | Home" "")]
              eq_refl) as (_ & B & _).
  apply (B ltac:(vm_compute; discriminate) "acme.com" eq_refl).
Defined.

(* ================================================================= *)
(** ** The tier cascade *)

Local Open Scope list_scope.


Section CascadeFacts.
Context {platform : Platform}.
Variable CONFIG : Config.
Variable env : Env.


Lemma invocations_app (h1 h2 : History) :
  invocations (h1 ++ h2) = invocations h1 ++ invocations h2.
Proof.
  induction h1 as [|e h1 IH]; cbn [app invocations]; [reflexivity|].
  destruct e; cbn [app]; rewrite IH; reflexivity.
Qed.

Lemma tryPatterns_total (patterns : list string) (h : History) :
  exists r h',
    tryPatterns env patterns h = (inr r, h')
    /\ invocations h' = invocations h.
Proof.
  revert h. induction patterns as [|p rest IH]; intros h;
    cbn [tryPatterns].
  - exists None, h. split; reflexivity.
  - unfold bind, checkDomainExists, checkWebsiteResponds, request.
    destruct (dnsResolves env h (stripWww p)); cbn [negb].
    + destruct (httpResponds env _ p).
      * eexists _, _. split; [reflexivity|].
        rewrite !invocations_app. cbn [invocations].
        rewrite !app_nil_r. reflexivity.
      * destruct (IH ((h ++ [DnsResolve (stripWww p)]) ++ [HttpHead p])%list)
          as (r & h' & E & I).
        exists r, h'. split; [exact E|].
        rewrite I, !invocations_app. cbn [invocations].
        rewrite !app_nil_r. reflexivity.
    + destruct (IH (h ++ [DnsResolve (stripWww p)])%list) as (r & h' & E & I).
      exists r, h'. split; [exact E|].
      rewrite I, !invocations_app. cbn [invocations].
      rewrite !app_nil_r. reflexivity.
Qed.

(** A tier resolves, never rejects, and counts as one invocation. *)
Lemma tierCall_total (t : Tier) (customer : Customer.t) (h : History) :
  exists r h',
    tierCall CONFIG env t customer h = (inr r, h')
    /\ invocations h' = invocations h ++ [t].
Proof.
  destruct t; cbn [tierCall].
  - unfold guessDomain, bind, request.
    destruct (enableDomainGuessing CONFIG); cbn [negb].
    + destruct (tryPatterns_total
                  (generateDomainPatterns CONFIG (Customer.name customer)
                     (Some (Customer.city customer)))
                  (h ++ [Invoke DomainGuessing])%list) as (r & h' & E & I).
      exists r, h'. split; [exact E|].
      rewrite I, invocations_app. reflexivity.
    + eexists _, _. split; [reflexivity|]. apply invocations_app.
  - unfold searchGoogleCSE, bind, request.
    destruct (negb (enableGoogleSearch CONFIG) || isEmpty (googleCseKey CONFIG)
              || isEmpty (googleCx CONFIG)).
    + eexists _, _. split; [reflexivity|]. apply invocations_app.
    + destruct (googleItems env _ _); eexists _, _;
        (split; [reflexivity|]);
        rewrite !invocations_app; cbn [invocations];
        rewrite app_nil_r; reflexivity.
  - unfold searchWithOpenAI, bind, request.
    destruct (negb (enableOpenAI CONFIG) || isEmpty (openaiKey CONFIG)).
    + eexists _, _. split; [reflexivity|]. apply invocations_app.
    + destruct (openaiContent env _ _ _ _ _); eexists _, _;
        (split; [reflexivity|]);
        rewrite !invocations_app; cbn [invocations];
        rewrite app_nil_r; reflexivity.
Qed.

(** [findWebsite] written with [tierCall]. *)
Lemma findWebsite_unfold (customer : Customer.t) :
  findWebsite CONFIG env customer =
  bind (if enabled CONFIG DomainGuessing
        then tierCall CONFIG env DomainGuessing customer else ret None)
    (fun guessed =>
       match guessed with
       | Some _ => ret guessed
       | None =>
           bind (if enabled CONFIG GoogleSearch
                 then tierCall CONFIG env GoogleSearch customer else ret None)
             (fun googleResult =>
                match googleResult with
                | Some _ => ret googleResult
                | None =>
                    bind (if enabled CONFIG OpenAI
                          then tierCall CONFIG env OpenAI customer
                          else ret None)
                      (fun openaiResult =>
                         match openaiResult with
                         | Some _ => ret openaiResult
                         | None => ret None
                         end)
                end)
       end).
Proof. reflexivity. Qed.

(** One step of the cascade, as [findWebsite] performs it. *)
Lemma cascade_step (customer : Customer.t) (t : Tier) (rest : list Tier)
  (k : M (option Cand.t)) (h : History) :
  (forall h1, exists result tried h',
      k h1 = (inr result, h')
      /\ Cascade CONFIG env customer rest h1 tried result h'
      /\ invocations h' = invocations h1 ++ tried) ->
  exists result tried h',
    bind (if enabled CONFIG t then tierCall CONFIG env t customer else ret None)
      (fun r => match r with Some _ => ret r | None => k end) h
    = (inr result, h')
    /\ Cascade CONFIG env customer (t :: rest) h tried result h'
    /\ invocations h' = invocations h ++ tried.
Proof.
  intros K. unfold bind.
  destruct (enabled CONFIG t) eqn:E.
  - destruct (tierCall_total t customer h) as (r & h1 & T & I).
    rewrite T. destruct r as [cand|].
    + exists (Some cand), [t], h1. split; [reflexivity|]. split; [|exact I].
      apply Cascade_found; assumption.
    + destruct (K h1) as (result & tried & h' & R & C & J).
      exists result, (t :: tried), h'. split; [exact R|]. split.
      * eapply Cascade_null; eassumption.
      * rewrite J, I, <- app_assoc. reflexivity.
  - cbn [ret]. destruct (K h) as (result & tried & h' & R & C & J).
    exists result, tried, h'. split; [exact R|]. split; [|exact J].
    apply Cascade_disabled; assumption.
Qed.



End CascadeFacts.

(* ================================================================= *)
(** ** The directory client and the batch processor *)

Local Open Scope list_scope.


Section BatchFacts.
Context {platform : Platform}.
Variable CONFIG : Config.
Variable env : Env.

Lemma isBlank_empty (s : string) : isEmpty s = true -> isBlank s = true.
Proof. destruct s; [reflexivity|discriminate]. Qed.

(** What [saveCustomerWebsite] sends and what it resolves to. *)
Lemma saveCustomerWebsite_run (customerId customerCode websiteUrl : string)
  (h : History) :
  let body := saveCustomerBody (saveOutId customerId)
                (saveOutCode customerCode) (toLowerCase websiteUrl) in
  saveCustomerWebsite env customerId customerCode websiteUrl h
  = (match directorySave env h body with
     | inl message => inl message
     | inr response => inr (saveSucceeded response)
     end,
     h ++ [SaveCustomer body]).
Proof.
  cbv zeta. unfold saveCustomerWebsite, bind, requestOrReject, ret.
  destruct (directorySave env h _); reflexivity.
Qed.

Lemma WebsitesTs_saveCustomerWebsite_run (outId outCode websiteUrl : string)
  (h : History) :
  let body := saveCustomerBody outId outCode websiteUrl in
  WebsitesTs.saveCustomerWebsite env outId outCode websiteUrl h
  = (match directorySave env h body with
     | inl message => inl message
     | inr response => inr (saveSucceeded response)
     end,
     h ++ [SaveCustomer body]).
Proof.
  cbv zeta. unfold WebsitesTs.saveCustomerWebsite, bind, requestOrReject, ret.
  destruct (directorySave env h _); reflexivity.
Qed.


Lemma WebsitesTs_processCustomer_total (rl : bool) (customerCode : string)
  (opts : Opts) (h : History) :
  exists res h',
    WebsitesTs.processCustomer env rl customerCode opts h = (inr res, h').
Proof.
  unfold WebsitesTs.processCustomer, tryCatch.
  match goal with |- context [match ?b h with _ => _ end] =>
    destruct (b h) as [[message|res] h'] end.
  - eexists _, _. reflexivity.
  - eexists _, _. reflexivity.
Qed.

(** The run of [processCustomer] up to the tiers, for a record that is
    fetched and is not skipped for its existing website. *)
Lemma processCustomer_unattended_found (customerCode : string) (opts : Opts)
  (customer : Customer.t) (cand : Cand.t) (h h1 : History) :
  nonInteractive opts = true ->
  truthy (website opts) = false ->
  directoryCustomer env h customerCode = inr customer ->
  isBlank (Customer.currentWebsite customer) = true \/ force opts = true ->
  findWebsite CONFIG env customer (h ++ [GetCustomer customerCode])
    = (inr (Some cand), h1) ->
  processCustomer CONFIG env customerCode opts h
  = if (Confidence_eqb (Cand.confidence cand) high || force opts)
       && negb (isBlank (Cand.url cand))
    then
      let normalizedUrl := normalizeDomain CONFIG (Cand.url cand) in
      let body := saveCustomerBody (saveOutId (Customer.id customer))
                    (saveOutCode (Customer.code customer))
                    (toLowerCase normalizedUrl) in
      (match directorySave env h1 body with
       | inl message => inr (errorResult message)
       | inr response =>
           inr (if saveSucceeded response then updatedResult normalizedUrl
                else savedResult false)
       end,
       h1 ++ [SaveCustomer body])
    else (inr skippedResult, h1).
Proof.
  intros NI W D G F.
  assert (X : negb (isBlank (Customer.currentWebsite customer))
              && negb (force opts) = false).
  { destruct G as [G|G]; rewrite G; [reflexivity|apply andb_false_r]. }
  unfold processCustomer, tryCatch, bind at 1, getCustomer, requestOrReject.
  rewrite D. unfold bind at 1, existingWebsiteStage. rewrite X. cbn [ret].
  unfold bind at 1, resolveStage. rewrite W. cbn [negb].
  unfold bind at 1. rewrite F, NI.
  destruct (Confidence_eqb (Cand.confidence cand) high || force opts);
    cbn [ret andb]; [|reflexivity].
  unfold persistStage. cbn [truthy orEmpty].
  destruct (isBlank (Cand.url cand)) eqn:B.
  - rewrite orb_true_r. reflexivity.
  - assert (E : isEmpty (Cand.url cand) = false).
    { destruct (isEmpty (Cand.url cand)) eqn:E; [|reflexivity].
      rewrite (isBlank_empty _ E) in B. discriminate. }
    rewrite E. cbn [negb orb]. rewrite NI. cbn [negb andb].
    unfold bind at 1. cbn [ret negb]. unfold bind.
    rewrite saveCustomerWebsite_run. cbv zeta.
    destruct (directorySave env h1 _) as [message|response]; [reflexivity|].
    destruct (saveSucceeded response); reflexivity.
Qed.

(** C2 (as amended).  In an unattended run, when the tiers return a
    candidate, [processCustomer] sends the candidate's normalized hostname
    to the directory if and only if the confidence is [high] or the force
    flag is set, and the candidate's hostname is not blank; otherwise the
    outcome is skipped and nothing is sent.  In particular a candidate
    of lower confidence without the force flag is never sent. *)
Theorem processCustomer_confidence_gate (customerCode : string) (opts : Opts)
  (customer : Customer.t) (cand : Cand.t) (h h1 : History) :
  nonInteractive opts = true ->
  truthy (website opts) = false ->
  directoryCustomer env h customerCode = inr customer ->
  isBlank (Customer.currentWebsite customer) = true \/ force opts = true ->
  findWebsite CONFIG env customer (h ++ [GetCustomer customerCode])
    = (inr (Some cand), h1) ->
  let applies :=
    (Confidence_eqb (Cand.confidence cand) high || force opts)
    && negb (isBlank (Cand.url cand)) in
  let run := processCustomer CONFIG env customerCode opts h in
  (applies = true ->
   snd run
   = h1 ++ [SaveCustomer
              (saveCustomerBody (saveOutId (Customer.id customer))
                 (saveOutCode (Customer.code customer))
                 (toLowerCase (normalizeDomain CONFIG (Cand.url cand))))])
  /\ (applies = false -> run = (inr skippedResult, h1))
  /\ (saves (snd run) <> saves h1 <-> applies = true).
Proof.
  intros NI W D G F applies run. subst run.
  rewrite (processCustomer_unattended_found customerCode opts customer cand
             h h1 NI W D G F).
  fold applies. destruct applies.
  - cbv zeta. cbn [snd]. split; [reflexivity|]. split; [discriminate|].
    split; [reflexivity|]. intros _.
    assert (S : forall l b, saves (l ++ [SaveCustomer b]) = saves l ++ [b]).
    { intros l b. induction l as [|e l IH]; [reflexivity|].
      destruct e; cbn [app saves]; rewrite IH; reflexivity. }
    rewrite S. intros K.
    apply (f_equal (@List.length string)) in K.
    rewrite length_app in K. cbn [List.length] in K. lia.
  - cbn [snd]. split; [discriminate|]. split; [reflexivity|].
    split; [intros K; exfalso; apply K; reflexivity|discriminate].
Qed.

End BatchFacts.

Local Open Scope list_scope.

Section PersistFacts.
Context {platform : Platform}.
Variable CONFIG : Config.
Variable env : Env.


(** C6, evaluated.  With a blank identifier and a blank code the enhanced
    script sends the identifier [0] and an empty code, also when it is
    reached from [processCustomer], which knows the code of the lookup;
    the TypeScript sibling sends the code of the lookup. *)
Theorem saveCustomerWebsite_blank_fields (customerCode : string)
  (customer : Customer.t) (rl : bool) (h : History) :
  directoryCustomer env h customerCode = inr customer ->
  isBlank (Customer.id customer) = true ->
  isBlank (Customer.code customer) = true ->
  isBlank (Customer.currentWebsite customer) = true ->
  snd (saveCustomerWebsite env "" "" "www.example.com" h)
  = h ++ [SaveCustomer (saveCustomerBody "0" "" "www.example.com")]
  /\ snd (processCustomer CONFIG env customerCode (pinned "www.example.com") h)
     = h ++ [GetCustomer customerCode;
             SaveCustomer
               (saveCustomerBody "0" ""
                  (toLowerCase (normalizeDomain CONFIG "www.example.com")))]
  /\ snd (WebsitesTs.processCustomer env rl customerCode
            (pinned "www.example.com") h)
     = h ++ [GetCustomer customerCode;
             SaveCustomer
               (saveCustomerBody "0" customerCode
                  (WebsitesTs.normalizeDomain "www.example.com"))].
Proof.
  intros D I C W. split; [|split].
  - rewrite saveCustomerWebsite_run. reflexivity.
  - unfold processCustomer, tryCatch, bind at 1, getCustomer, requestOrReject.
    rewrite D. unfold bind at 1, existingWebsiteStage. rewrite W.
    cbn [negb andb ret]. unfold bind at 1, resolveStage.
    cbn [pinned website truthy isEmpty negb ret].
    unfold persistStage.
    cbn [pinned website nonInteractive truthy orEmpty isEmpty negb orb].
    replace (isBlank "www.example.com") with false by reflexivity.
    cbn [andb]. unfold bind at 1. cbn [ret negb]. unfold bind.
    rewrite saveCustomerWebsite_run. cbv zeta.
    unfold saveOutId, saveOutCode. rewrite I, C.
    destruct (directorySave env _ _) as [m|r];
      [|destruct (saveSucceeded r)]; cbn [snd ret];
      rewrite <- app_assoc; reflexivity.
  - unfold WebsitesTs.processCustomer, tryCatch, bind at 1, getCustomer,
      requestOrReject.
    rewrite D. unfold bind at 1, WebsitesTs.overwriteStage. rewrite W.
    cbn [negb andb ret]. unfold bind at 1, WebsitesTs.websiteStage.
    cbn [pinned website truthy isEmpty negb ret].
    unfold WebsitesTs.saveStage.
    cbn [pinned website nonInteractive truthy orEmpty isEmpty negb orb].
    replace (isBlank "www.example.com") with false by reflexivity.
    unfold bind at 1. cbn [ret negb]. unfold bind.
    rewrite WebsitesTs_saveCustomerWebsite_run. cbv zeta.
    rewrite I, C.
    destruct (directorySave env _ _) as [m|r]; cbn [snd ret];
      rewrite <- app_assoc; reflexivity.
Qed.

End PersistFacts.

Local Open Scope list_scope.

Section TallyFacts.
Context {platform : Platform}.
Variable CONFIG : Config.
Variable env : Env.






(** C8, evaluated.  A row with code [ABC123] whose record has a website,
    in an unattended run without the force flag: the record is counted
    as skipped, no detail entry is recorded for it, and the CSV text that
    is written from the details is the header line alone. *)
Theorem processCustomerList_existing_website (item : Row) (opts : Opts)
  (customer : Customer.t) (h : History) :
  rowCode item = "ABC123"%string ->
  nonInteractive opts = true ->
  force opts = false ->
  directoryCustomer env h "ABC123" = inr customer ->
  isBlank (Customer.currentWebsite customer) = false ->
  processCustomerList CONFIG env [item] opts h
  = (inr ({| total := 1; updated := 0; skipped := 1; failed := 0 |}, []),
     h ++ [GetCustomer "ABC123"])
  /\ csvLines [] = ["code,status,url,error"%string]
  /\ writeResultsCsv [] = "code,status,url,error"%string.
Proof.
  intros C NI F D W. split; [|split; reflexivity].
  unfold processCustomerList. cbn [processRows List.length].
  rewrite C. unfold bind at 1.
  unfold processCustomer, tryCatch, bind at 1, getCustomer, requestOrReject.
  rewrite D. unfold bind at 1, existingWebsiteStage.
  cbn [nonInteractive force]. rewrite W, NI, F. reflexivity.
Qed.

End TallyFacts.

(* ================================================================= *)
(** ** Concrete runs *)

Local Open Scope list_scope.

Section FirstTier.
Context {platform : Platform}.
Variable CONFIG : Config.
Variable env : Env.

(** When domain guessing is enabled and finds a live candidate, that is
    the result, and the run of [findWebsite] is the run of the guess: no
    other tier has been called. *)
Corollary findWebsite_guess_wins (customer : Customer.t) (cand : Cand.t)
  (h h1 : History) :
  enableDomainGuessing CONFIG = true ->
  guessDomain CONFIG env (Customer.name customer) (Customer.city customer) h
    = (inr (Some cand), h1) ->
  findWebsite CONFIG env customer h = (inr (Some cand), h1).
Proof.
  intros E G. unfold findWebsite, bind at 1. rewrite E, G. reflexivity.
Qed.

End FirstTier.

(** C2 (as stated) fails for a candidate whose hostname is blank: the
    search tier returns one with confidence [high] for a link without a
    host, and the OpenAI tier returns one for an empty completion, here
    with the force flag set; both records are skipped and nothing is sent
    to the directory. *)
Lemma processCustomer_blank_candidate_skipped :
  let customer := customerWith "17" "WE01" "" in
  let searchWorld :=
    scriptedEnv (inr customer) okSave
      (Some [searchItem "file:///acme.com" "" ""]) None [] in
  let aiWorld := scriptedEnv (inr customer) okSave None (Some " ") [] in
  (fst (findWebsite configGoogleOnly searchWorld customer [GetCustomer "WE01"])
   = inr (Some {| Cand.url := ""; Cand.confidence := high;
                  Cand.source := "google_cse";
                  Cand.allResults := ["file:///acme.com"%string] |})
   /\ processCustomer configGoogleOnly searchWorld "WE01" (unattended false) []
      = (inr skippedResult,
         [GetCustomer "WE01"; Invoke GoogleSearch;
          GoogleRequest "Acme Inc Springfield IL official website"]))
  /\
  (fst (findWebsite configOpenAIOnly aiWorld customer [GetCustomer "WE01"])
   = inr (Some {| Cand.url := ""; Cand.confidence := medium;
                  Cand.source := "openai"; Cand.allResults := [] |})
   /\ force (unattended true) = true
   /\ processCustomer configOpenAIOnly aiWorld "WE01" (unattended true) []
      = (inr skippedResult,
         [GetCustomer "WE01"; Invoke OpenAI;
          OpenAIRequest "Acme Inc" "Springfield" "IL" ""])).
Proof. repeat split; reflexivity. Qed.

Lemma processCustomer_confidence_gate_witness :
  let customer := customerWith "17" "WE01" "" in
  let world :=
    scriptedEnv (inr customer) okSave
      (Some [searchItem "https://Acme.com/about" "Acme" ""]) None [] in
  snd (processCustomer configGoogleOnly world "WE01" (unattended false) [])
  = [GetCustomer "WE01"; Invoke GoogleSearch;
     GoogleRequest "Acme Inc Springfield IL official website";
     SaveCustomer (saveCustomerBody "17" "WE01" "www.acme.com")].
Proof.
  cbv zeta.
  refine (proj1 (processCustomer_confidence_gate configGoogleOnly
                   (scriptedEnv (inr (customerWith "17" "WE01" "")) okSave
                      (Some [searchItem "https://Acme.com/about" "Acme" ""])
                      None [])
                   "WE01" (unattended false) (customerWith "17" "WE01" "")
                   {| Cand.url := "www.acme.com"; Cand.confidence := high;
                      Cand.source := "google_cse";
                      Cand.allResults := ["https://Acme.com/about"%string] |}
                   []
                   [GetCustomer "WE01"; Invoke GoogleSearch;
                    GoogleRequest "Acme Inc Springfield IL official website"]
                   eq_refl eq_refl eq_refl (or_introl eq_refl) eq_refl)
                eq_refl).
Defined.


Lemma saveCustomerWebsite_blank_fields_witness :
  let world := scriptedEnv (inr (customerWith "" "" "")) okSave None None [] in
  snd (processCustomer (configWww true) world "WE01"
         (pinned "www.example.com") [])
  = [GetCustomer "WE01";
     SaveCustomer (saveCustomerBody "0" "" "www.example.com")]
  /\ snd (WebsitesTs.processCustomer world true "WE01"
            (pinned "www.example.com") [])
     = [GetCustomer "WE01";
        SaveCustomer (saveCustomerBody "0" "WE01" "www.example.com")].
Proof.
  cbv zeta.
  exact (proj2 (saveCustomerWebsite_blank_fields (configWww true)
                  (scriptedEnv (inr (customerWith "" "" "")) okSave
                     None None [])
                  "WE01" (customerWith "" "" "") true []
                  eq_refl eq_refl eq_refl eq_refl)).
Defined.



Lemma processCustomerList_existing_website_witness :
  let world :=
    scriptedEnv (inr (customerWith "41" "ABC123" "www.abc.com")) okSave
      None None [] in
  processCustomerList (defaultConfig "" "" "") world [Bare "ABC123"]
    (unattended false) []
  = (inr ({| total := 1; updated := 0; skipped := 1; failed := 0 |}, []),
     [GetCustomer "ABC123"]).
Proof.
  cbv zeta.
  exact (proj1 (processCustomerList_existing_website (defaultConfig "" "" "")
                  (scriptedEnv (inr (customerWith "41" "ABC123" "www.abc.com"))
                     okSave None None [])
                  (Bare "ABC123") (unattended false)
                  (customerWith "41" "ABC123" "www.abc.com") []
                  eq_refl eq_refl eq_refl eq_refl eq_refl)).
Defined.

(** *** The end-to-end scenarios of the documentation *)

(** A record without a website whose guessed domain is live: updated,
    with one line in the CSV. *)
Example scenario_updated :
  let customer :=
    {| Customer.id := "7"; Customer.code := "WE01";
       Customer.name := "Webowers, Inc."; Customer.city := "";
       Customer.state := "MD"; Customer.phone := "";
       Customer.currentWebsite := "" |} in
  let run :=
    processCustomerList (defaultConfig "" "" "")
      (liveEnv "webowers.com" customer) [Bare "WE01"] (unattended false) [] in
  exists detailed,
    fst run
    = inr ({| total := 1; updated := 1; skipped := 0; failed := 0 |}, detailed)
    /\ csvLines detailed
       = ["code,status,url,error"%string;
          "WE01,updated,www.webowers.com,"%string]
    /\ invocations (snd run) = [DomainGuessing].
Proof. cbv zeta. eexists. repeat split; reflexivity. Qed.

(** A record whose lookup is rejected: failed, with the message in the
    CSV, and the batch goes on. *)
Example scenario_failed :
  let world :=
    scriptedEnv (inl "HTTP 500: Invalid customer code"%string) okSave
      None None [] in
  let run :=
    processCustomerList (defaultConfig "" "" "") world
      [Bare "XYZ999"; Bare "XYZ1000"] (unattended false) [] in
  exists detailed,
    fst run
    = inr ({| total := 2; updated := 0; skipped := 0; failed := 2 |}, detailed)
    /\ csvLines detailed
       = ["code,status,url,error"%string;
          "XYZ999,failed,,HTTP 500: Invalid customer code"%string;
          "XYZ1000,failed,,HTTP 500: Invalid customer code"%string].
Proof. cbv zeta. eexists. repeat split; reflexivity. Qed.

(* ================================================================= *)
(** ** Further facts: normalization and patterns *)

Local Open Scope string_scope.

Section MoreStringFacts.

Lemma startsWith_toLowerCase (p s : string) :
  startsWith p s = true -> startsWith (toLowerCase p) (toLowerCase s) = true.
Proof.
  revert s. induction p as [|a p IH]; intros [|b s];
    cbn [startsWith toLowerCase]; try reflexivity; try discriminate.
  intros H. apply andb_prop in H. destruct H as [H1 H2].
  apply Ascii.eqb_eq in H1. subst b.
  rewrite Ascii.eqb_refl, (IH s H2). reflexivity.
Qed.

Lemma forallb_append (p : ascii -> bool) (a b : string) :
  Str.forallb p (a ++ b) = Str.forallb p a && Str.forallb p b.
Proof.
  induction a as [|c a IH]; cbn [append Str.forallb]; [reflexivity|].
  rewrite IH, andb_assoc. reflexivity.
Qed.

Lemma append_assoc (a b c : string) : (a ++ b) ++ c = a ++ (b ++ c).
Proof.
  induction a as [|x a IH]; cbn [append]; [reflexivity|].
  rewrite IH. reflexivity.
Qed.

Lemma forallb_impl (p q : ascii -> bool) (s : string) :
  (forall c, p c = true -> q c = true) ->
  Str.forallb p s = true -> Str.forallb q s = true.
Proof.
  intros I. induction s as [|c s IH]; cbn [Str.forallb]; [reflexivity|].
  intros H. apply andb_prop in H. destruct H as [H1 H2].
  rewrite (I c H1), (IH H2). reflexivity.
Qed.

Lemma filter_forallb (p q : ascii -> bool) (s : string) :
  Str.forallb p s = true ->
  Str.forallb (fun c => p c && q c) (Str.filter q s) = true.
Proof.
  induction s as [|c s IH]; cbn [Str.forallb Str.filter]; [reflexivity|].
  intros H. apply andb_prop in H. destruct H as [H1 H2].
  destruct (q c) eqn:Q; cbn [Str.forallb]; [rewrite H1, Q|]; auto.
Qed.

Lemma filter_keeps (q : ascii -> bool) (s : string) :
  Str.forallb q (Str.filter q s) = true.
Proof.
  induction s as [|c s IH]; cbn [Str.forallb Str.filter]; [reflexivity|].
  destruct (q c) eqn:Q; cbn [Str.forallb]; [rewrite Q|]; auto.
Qed.

Lemma dropWhile_forallb (p q : ascii -> bool) (s : string) :
  Str.forallb p s = true -> Str.forallb p (dropWhile q s) = true.
Proof.
  induction s as [|c s IH]; cbn [Str.forallb dropWhile]; [reflexivity|].
  intros H. destruct (q c); [|exact H].
  apply andb_prop in H. destruct H as [_ H2]. auto.
Qed.

Lemma dropWhileEnd_forallb (p q : ascii -> bool) (s : string) :
  Str.forallb p s = true -> Str.forallb p (dropWhileEnd q s) = true.
Proof.
  induction s as [|c s IH]; cbn [Str.forallb dropWhileEnd]; [reflexivity|].
  intros H. apply andb_prop in H. destruct H as [H1 H2].
  specialize (IH H2).
  destruct (dropWhileEnd q s) as [|d t].
  - destruct (q c); cbn [Str.forallb]; [reflexivity|].
    rewrite H1. reflexivity.
  - cbn [Str.forallb] in *. rewrite H1. exact IH.
Qed.

Lemma trim_forallb (p : ascii -> bool) (s : string) :
  Str.forallb p s = true -> Str.forallb p (trim s) = true.
Proof.
  intros H. unfold trim, trimEnd, trimStart.
  apply dropWhileEnd_forallb, dropWhile_forallb, H.
Qed.

Lemma dropWhileEnd_idem (p : ascii -> bool) (s : string) :
  dropWhileEnd p (dropWhileEnd p s) = dropWhileEnd p s.
Proof.
  induction s as [|c s IH]; cbn [dropWhileEnd]; [reflexivity|].
  destruct (dropWhileEnd p s) as [|d t] eqn:E.
  - destruct (p c) eqn:P; cbn [dropWhileEnd]; [reflexivity|].
    rewrite P. reflexivity.
  - cbn [dropWhileEnd] in *. rewrite IH. reflexivity.
Qed.

Lemma dropWhile_head (p : ascii -> bool) (s : string) :
  match dropWhile p s with
  | EmptyString => True
  | String c _ => p c = false
  end.
Proof.
  induction s as [|c s IH]; cbn [dropWhile]; [exact I|].
  destruct (p c) eqn:P; [exact IH|exact P].
Qed.

(** [trim] twice is [trim] once. *)
Lemma trim_idem (s : string) : trim (trim s) = trim s.
Proof.
  unfold trim, trimStart, trimEnd.
  pose proof (dropWhile_head isSpace s) as H.
  destruct (dropWhile isSpace s) as [|c t]; [reflexivity|].
  rewrite (dropWhileEnd_cons isSpace c t H).
  cbn [dropWhile]. rewrite H.
  rewrite <- (dropWhileEnd_cons isSpace c t H).
  apply dropWhileEnd_idem.
Qed.

End MoreStringFacts.

Section NormalizerMore.
Context {platform : Platform}.
Variable CONFIG : Config.

(** X1.  With the prefix forced, the normal form of every non-empty input
    begins with [www.] (in some letter case), on either path and in the
    TypeScript sibling. *)
Theorem normalizeDomain_forced_prefix (x : string) :
  isEmpty x = false ->
  forceWww CONFIG = true ->
  startsWithCI "www." (normalizeDomain CONFIG x) = true
  /\ startsWithCI "www." (WebsitesTs.normalizeDomain x) = true.
Proof.
  intros E F.
  assert (K : startsWithCI "www." (normalizeDomain CONFIG x) = true).
  { unfold normalizeDomain. rewrite E, F. cbn [andb].
    destruct (URL_hostname (urlTarget (trim x))) as [host|].
    - destruct (startsWith "www." host) eqn:S; cbn [negb]; [|reflexivity].
      apply (startsWith_toLowerCase "www." host S).
    - destruct (startsWithCI "www." (beforeSlash (stripSchemeWww (trim x))))
        eqn:S; cbn [negb]; [exact S|reflexivity]. }
  split; [exact K|].
  rewrite (WebsitesTs_normalizeDomain_eq CONFIG x F). exact K.
Qed.

(** X2.  When the URL parser rejects the input, the normal form contains
    no slash: the textual fallback never lets a path through. *)
Theorem normalizeDomain_fallback_no_path (x : string) :
  isEmpty x = false ->
  URL_hostname (urlTarget (trim x)) = None ->
  Str.forallb notSlash (normalizeDomain CONFIG x) = true.
Proof.
  intros E P. rewrite (normalizeDomain_fallback CONFIG x E P). cbv zeta.
  pose proof (takeWhile_forallb notSlash (stripSchemeWww (trim x))) as T.
  change (Str.forallb notSlash (beforeSlash (stripSchemeWww (trim x))) = true)
    in T.
  destruct (forceWww CONFIG && negb _); [|exact T].
  rewrite forallb_append, T. reflexivity.
Qed.

End NormalizerMore.

Section PatternMore.
Variable CONFIG : Config.

Lemma cleanCompanyName_keeps (name : string) :
  Str.forallb keepNameChar (cleanCompanyName name) = true.
Proof. unfold cleanCompanyName. apply trim_forallb, filter_keeps. Qed.

(** X3.  A cleaned company name contains only lower-case letters, digits,
    white space and hyphens, and has no white space at either end. *)
Theorem cleanCompanyName_shape (name : string) :
  Str.forallb keepNameChar (cleanCompanyName name) = true
  /\ trim (cleanCompanyName name) = cleanCompanyName name.
Proof.
  split.
  - apply cleanCompanyName_keeps.
  - unfold cleanCompanyName. apply trim_idem.
Qed.

Lemma keepNameChar_label (c : ascii) :
  keepNameChar c = true -> isSpace c = false -> isLabelChar c = true.
Proof.
  unfold keepNameChar, isLabelChar. intros K S. rewrite S in K.
  rewrite orb_false_r in K. exact K.
Qed.

Lemma hyphenate_label (inRun : bool) (s : string) :
  Str.forallb keepNameChar s = true ->
  Str.forallb isLabelChar (hyphenate inRun s) = true.
Proof.
  revert inRun. induction s as [|c s IH]; intros inRun;
    cbn [Str.forallb hyphenate]; [reflexivity|].
  intros H. apply andb_prop in H. destruct H as [H1 H2].
  destruct (isSpace c) eqn:S.
  - destruct inRun; cbn [Str.forallb]; rewrite ?IH; auto.
  - cbn [Str.forallb]. rewrite (keepNameChar_label c H1 S), IH; auto.
Qed.

Lemma noSpaces_label (s : string) :
  Str.forallb keepNameChar s = true ->
  Str.forallb isLabelChar (Str.filter (fun c => negb (isSpace c)) s) = true.
Proof.
  intros H.
  apply (forallb_impl (fun c => keepNameChar c && negb (isSpace c))).
  - intros c K. apply andb_prop in K. destruct K as [K1 K2].
    apply keepNameChar_label; [exact K1|].
    apply negb_true_iff. exact K2.
  - apply filter_forallb. exact H.
Qed.

Lemma filter_label (q : ascii -> bool) (s : string) :
  Str.forallb isLabelChar s = true ->
  Str.forallb isLabelChar (Str.filter q s) = true.
Proof.
  intros H. apply (forallb_impl (fun c => isLabelChar c && q c)).
  - intros c K. apply andb_prop in K. tauto.
  - apply filter_forallb. exact H.
Qed.

Lemma cityClean_label (s : string) :
  Str.forallb isLabelChar
    (Str.filter (fun c => isLower c || isDigit c) s) = true.
Proof.
  apply (forallb_impl (fun c => isLower c || isDigit c)).
  - intros c K. unfold isLabelChar. rewrite K. reflexivity.
  - apply filter_keeps.
Qed.

Lemma existsb_eqb_In (x : string) (l : list string) :
  List.existsb (String.eqb x) l = true <-> In x l.
Proof.
  rewrite existsb_exists. split.
  - intros (y & I & E). apply String.eqb_eq in E. subst y. exact I.
  - intros I. exists x. split; [exact I|apply String.eqb_refl].
Qed.

Lemma uniqueFrom_In (seen l : list string) (x : string) :
  In x (uniqueFrom seen l) -> In x l /\ ~ In x seen.
Proof.
  revert seen. induction l as [|y l IH]; intros seen; cbn [uniqueFrom].
  - intros [].
  - destruct (List.existsb (String.eqb y) seen) eqn:E.
    + intros I. destruct (IH seen I) as [I1 I2]. split; [right; exact I1|].
      exact I2.
    + intros [I|I].
      * subst y. split; [left; reflexivity|].
        intros K. apply existsb_eqb_In in K. congruence.
      * destruct (IH (y :: seen) I) as [I1 I2].
        split; [right; exact I1|]. intros K. apply I2. right. exact K.
Qed.

Lemma uniqueFrom_NoDup (seen l : list string) : NoDup (uniqueFrom seen l).
Proof.
  revert seen. induction l as [|y l IH]; intros seen; cbn [uniqueFrom].
  - constructor.
  - destruct (List.existsb (String.eqb y) seen); [apply IH|].
    constructor; [|apply IH].
    intros I. apply uniqueFrom_In in I. destruct I as [_ I].
    apply I. left. reflexivity.
Qed.

Lemma uniqueFrom_length (seen l : list string) :
  List.length (uniqueFrom seen l) <= List.length l.
Proof.
  revert seen. induction l as [|y l IH]; intros seen; cbn [uniqueFrom].
  - apply Nat.le_refl.
  - destruct (List.existsb (String.eqb y) seen); cbn [List.length].
    + specialize (IH seen). lia.
    + specialize (IH (y :: seen)). lia.
Qed.

Lemma generateDomainPatterns_raw (companyName : string)
  (city : option string) :
  generateDomainPatterns CONFIG companyName city
  = map (prefixed CONFIG) (unique (rawPatterns companyName city)).
Proof. reflexivity. Qed.

(** Every entry of [patterns] is a label with [.com] behind it. *)
Lemma rawPatterns_form (companyName : string) (city : option string)
  (p : string) :
  In p (rawPatterns companyName city) ->
  exists label, Str.forallb isLabelChar label = true /\ p = label ++ ".com".
Proof.
  unfold rawPatterns. intros I.
  pose proof (cleanCompanyName_keeps companyName) as K.
  pose proof (noSpaces_label _ K) as N.
  pose proof (hyphenate_label false _ K) as Hy.
  pose proof (filter_label (fun c => negb (isDigit c)) _ N) as Nn.
  pose proof (cityClean_label (toLowerCase (orEmpty city))) as Ci.
  destruct (truthy city); cbn [app In] in I.
  - destruct I as [I|[I|[I|[I|[I|[]]]]]]; subst p.
    + eexists. split; [exact N|reflexivity].
    + eexists. split; [exact Hy|reflexivity].
    + eexists. split; [exact Nn|reflexivity].
    + eexists. split; [|apply eq_sym, append_assoc].
      rewrite forallb_append, N, Ci. reflexivity.
    + eexists. split; [|apply eq_sym, append_assoc].
      rewrite forallb_append, N, Ci. reflexivity.
  - destruct I as [I|[I|[I|[]]]]; subst p.
    + eexists. split; [exact N|reflexivity].
    + eexists. split; [exact Hy|reflexivity].
    + eexists. split; [exact Nn|reflexivity].
Qed.

Lemma generateDomainPatterns_form (companyName : string)
  (city : option string) (p : string) :
  In p (generateDomainPatterns CONFIG companyName city) ->
  exists label,
    Str.forallb isLabelChar label = true
    /\ p = prefixed CONFIG (label ++ ".com").
Proof.
  rewrite generateDomainPatterns_raw. intros I.
  apply in_map_iff in I. destruct I as (p0 & E & I). subst p.
  apply uniqueFrom_In in I. destruct I as [I _].
  destruct (rawPatterns_form _ _ _ I) as (label & L & E). subst p0.
  exists label. split; [exact L|reflexivity].
Qed.

(** X4.  Every candidate hostname consists of lower-case letters, digits,
    hyphens and dots only, ends in [.com], and begins with [www.] when the
    prefix is forced. *)
Theorem generateDomainPatterns_hostnames (companyName : string)
  (city : option string) (p : string) :
  In p (generateDomainPatterns CONFIG companyName city) ->
  Str.forallb isHostChar p = true
  /\ (exists pre, p = pre ++ ".com")
  /\ (forceWww CONFIG = true -> startsWith "www." p = true).
Proof.
  intros I. destruct (generateDomainPatterns_form _ _ _ I) as (label & L & E).
  subst p. unfold prefixed.
  assert (H : Str.forallb isHostChar (label ++ ".com") = true).
  { rewrite forallb_append.
    rewrite (forallb_impl isLabelChar isHostChar label); [reflexivity| |exact L].
    intros c K. unfold isHostChar. rewrite K. reflexivity. }
  destruct (forceWww CONFIG) eqn:F; cbn [andb].
  - destruct (startsWith "www." (label ++ ".com")) eqn:S; cbn [negb].
    + split; [exact H|]. split; [exists label; reflexivity|]. intros _. exact S.
    + split; [rewrite forallb_append, H; reflexivity|].
      split; [exists ("www." ++ label)|intros _; reflexivity].
      clear. cbn [append]. reflexivity.
  - split; [exact H|]. split; [exists label; reflexivity|discriminate].
Qed.

Lemma length_append (a b : string) :
  String.length (a ++ b) = String.length a + String.length b.
Proof.
  induction a as [|x a IH]; cbn [append String.length]; [reflexivity|].
  rewrite IH. reflexivity.
Qed.

Lemma isLabelChar_notDot (c : ascii) :
  isLabelChar c = true -> Ascii.eqb c "." = false.
Proof. destruct c as [[] [] [] [] [] [] [] []]; vm_compute; congruence. Qed.

Lemma takeWhile_label (label rest : string) :
  Str.forallb isLabelChar label = true ->
  takeWhile (fun c => negb (Ascii.eqb c ".")) (label ++ String "." rest)
  = label.
Proof.
  induction label as [|c l IH]; cbn [append takeWhile Str.forallb].
  - reflexivity.
  - intros H. apply andb_prop in H. destruct H as [H1 H2].
    rewrite (isLabelChar_notDot c H1). cbn [negb]. rewrite (IH H2).
    reflexivity.
Qed.

(** Adding the prefix cannot make two candidates equal. *)
Lemma prefixed_inj (l1 l2 : string) :
  Str.forallb isLabelChar l1 = true ->
  Str.forallb isLabelChar l2 = true ->
  prefixed CONFIG (l1 ++ ".com") = prefixed CONFIG (l2 ++ ".com") ->
  l1 ++ ".com" = l2 ++ ".com".
Proof.
  assert (X : forall a b,
             Str.forallb isLabelChar b = true ->
             "www." ++ (a ++ ".com") = b ++ ".com" -> False).
  { intros a b B E.
    pose proof (f_equal (takeWhile (fun c => negb (Ascii.eqb c "."))) E) as T.
    change (b ++ ".com") with (b ++ String "." "com") in T.
    rewrite (takeWhile_label b "com" B) in T. cbn in T. subst b.
    apply (f_equal String.length) in E.
    rewrite !length_append in E. cbn [String.length] in E. lia. }
  intros L1 L2. unfold prefixed.
  destruct (forceWww CONFIG); cbn [andb]; [|auto].
  destruct (startsWith "www." (l1 ++ ".com")),
           (startsWith "www." (l2 ++ ".com")); cbn [negb]; intros E.
  - exact E.
  - exfalso. symmetry in E. exact (X _ _ L1 E).
  - exfalso. exact (X _ _ L2 E).
  - inversion E. reflexivity.
Qed.

Lemma generateDomainPatterns_length (companyName : string)
  (city : option string) :
  List.length (generateDomainPatterns CONFIG companyName city)
  <= (if truthy city then 5 else 3).
Proof.
  rewrite generateDomainPatterns_raw, length_map.
  eapply Nat.le_trans; [apply uniqueFrom_length|].
  unfold rawPatterns. destruct (truthy city); cbn [app List.length]; lia.
Qed.

(** X5.  The candidates are pairwise distinct, also after the prefix has
    been added; there are at most five of them, and at most three when no
    city is given. *)
Theorem generateDomainPatterns_distinct (companyName : string)
  (city : option string) :
  NoDup (generateDomainPatterns CONFIG companyName city)
  /\ List.length (generateDomainPatterns CONFIG companyName city) <= 5
  /\ (truthy city = false ->
      List.length (generateDomainPatterns CONFIG companyName city) <= 3).
Proof.
  split; [|split].
  - rewrite generateDomainPatterns_raw.
    apply NoDup_map_NoDup_ForallPairs; [|apply uniqueFrom_NoDup].
    intros a b Ia Ib E.
    apply uniqueFrom_In in Ia. destruct Ia as [Ia _].
    apply uniqueFrom_In in Ib. destruct Ib as [Ib _].
    destruct (rawPatterns_form _ _ _ Ia) as (la & La & Ea).
    destruct (rawPatterns_form _ _ _ Ib) as (lb & Lb & Eb).
    subst a b. apply prefixed_inj; assumption.
  - pose proof (generateDomainPatterns_length companyName city) as L.
    destruct (truthy city); lia.
  - intros T. pose proof (generateDomainPatterns_length companyName city) as L.
    rewrite T in L. exact L.
Qed.

End PatternMore.

(* ================================================================= *)
(** ** Further facts: what a run adds to the history *)

Local Open Scope list_scope.

Section ExtendsFacts.

Lemma extends_ret {A} (allowed : Event -> bool) (a : A) :
  extends allowed (ret a).
Proof. intros h. exists []. rewrite app_nil_r. split; reflexivity. Qed.

Lemma extends_throw {A} (allowed : Event -> bool) (message : string) :
  extends allowed (@throw A message).
Proof. intros h. exists []. rewrite app_nil_r. split; reflexivity. Qed.

Lemma extends_request {A} (allowed : Event -> bool) (e : Event)
  (answer : History -> A) :
  allowed e = true -> extends allowed (request e answer).
Proof.
  intros H h. exists [e]. split; [reflexivity|].
  cbn [List.forallb]. rewrite H. reflexivity.
Qed.

Lemma extends_requestOrReject {A} (allowed : Event -> bool) (e : Event)
  (answer : History -> string + A) :
  allowed e = true -> extends allowed (requestOrReject e answer).
Proof.
  intros H h. exists [e]. split; [reflexivity|].
  cbn [List.forallb]. rewrite H. reflexivity.
Qed.

Lemma extends_bind {A B} (allowed : Event -> bool) (m : M A) (k : A -> M B) :
  extends allowed m -> (forall a, extends allowed (k a)) ->
  extends allowed (bind m k).
Proof.
  intros Hm Hk h. unfold bind.
  destruct (Hm h) as (d1 & E1 & F1).
  destruct (m h) as [[message|a] h1]; cbn [snd] in *; subst h1.
  - exists d1. split; [reflexivity|exact F1].
  - destruct (Hk a (h ++ d1)) as (d2 & E2 & F2).
    exists (d1 ++ d2). rewrite E2, app_assoc. split; [reflexivity|].
    rewrite forallb_app, F1, F2. reflexivity.
Qed.

Lemma extends_tryCatch {A} (allowed : Event -> bool) (body : M A)
  (handler : string -> M A) :
  extends allowed body -> (forall message, extends allowed (handler message)) ->
  extends allowed (tryCatch body handler).
Proof.
  intros Hm Hk h. unfold tryCatch.
  destruct (Hm h) as (d1 & E1 & F1).
  destruct (body h) as [[message|a] h1]; cbn [snd] in *; subst h1.
  - destruct (Hk message (h ++ d1)) as (d2 & E2 & F2).
    exists (d1 ++ d2). rewrite E2, app_assoc. split; [reflexivity|].
    rewrite forallb_app, F1, F2. reflexivity.
  - exists d1. split; [reflexivity|exact F1].
Qed.

Lemma extends_weaken {A} (allowed allowed' : Event -> bool) (m : M A) :
  (forall e, allowed e = true -> allowed' e = true) ->
  extends allowed m -> extends allowed' m.
Proof.
  intros I Hm h. destruct (Hm h) as (d & E & F). exists d. split; [exact E|].
  apply forallb_forall. intros e In_e.
  apply I. rewrite forallb_forall in F. apply F, In_e.
Qed.

Lemma countEvents_app (p : Event -> bool) (a b : History) :
  countEvents p (a ++ b) = countEvents p a + countEvents p b.
Proof. unfold countEvents. rewrite filter_app, length_app. reflexivity. Qed.

(** Events of a kind that is not allowed do not occur. *)
Lemma countEvents_excluded (allowed p : Event -> bool) (d : History) :
  (forall e, allowed e = true -> p e = false) ->
  List.forallb allowed d = true -> countEvents p d = 0.
Proof.
  intros X F. unfold countEvents.
  induction d as [|e d IH]; [reflexivity|].
  cbn [List.forallb] in F. apply andb_prop in F. destruct F as [F1 F2].
  cbn [List.filter]. rewrite (X e F1). apply IH, F2.
Qed.

End ExtendsFacts.

Section GuessFacts.
Context {platform : Platform}.
Variable CONFIG : Config.
Variable env : Env.

(** A candidate of the pattern loop is one of the patterns, found by a
    lookup and a probe that both succeeded, the last two events. *)
Lemma tryPatterns_found (patterns : list string) :
  forall (h h' : History) (cand : Cand.t),
    tryPatterns env patterns h = (inr (Some cand), h') ->
    In (Cand.url cand) patterns
    /\ cand = guessCandidate (Cand.url cand)
    /\ exists before,
        h' = before ++ [DnsResolve (stripWww (Cand.url cand));
                        HttpHead (Cand.url cand)]
        /\ dnsResolves env before (stripWww (Cand.url cand)) = true
        /\ httpResponds env
             (before ++ [DnsResolve (stripWww (Cand.url cand))])
             (Cand.url cand) = true.
Proof.
  induction patterns as [|p rest IH]; intros h h' cand;
    cbn [tryPatterns].
  - unfold ret. intros E. discriminate E.
  - unfold bind, checkDomainExists, checkWebsiteResponds, request.
    destruct (dnsResolves env h (stripWww p)) eqn:D; cbn [negb].
    + destruct (httpResponds env (h ++ [DnsResolve (stripWww p)]) p) eqn:R.
      * unfold ret. intros E. inversion E; subst. cbn [guessCandidate Cand.url].
        split; [left; reflexivity|]. split; [reflexivity|].
        exists h. rewrite <- app_assoc. split; [reflexivity|].
        split; assumption.
      * intros E. destruct (IH _ _ _ E) as (I & G & B).
        split; [right; exact I|]. split; [exact G|exact B].
    + intros E. destruct (IH _ _ _ E) as (I & G & B).
      split; [right; exact I|]. split; [exact G|exact B].
Qed.

(** X6.  A candidate of the domain-guessing tier is one of the generated
    patterns, with confidence [high] and source [domain_guess]; the last
    two events of the tier are its name lookup and its HTTP probe, and
    both succeeded. *)
Theorem guessDomain_found (companyName city : string) (h h' : History)
  (cand : Cand.t) :
  guessDomain CONFIG env companyName city h = (inr (Some cand), h') ->
  In (Cand.url cand) (generateDomainPatterns CONFIG companyName (Some city))
  /\ Cand.confidence cand = high
  /\ Cand.source cand = "domain_guess"%string
  /\ exists before,
      h' = before ++ [DnsResolve (stripWww (Cand.url cand));
                      HttpHead (Cand.url cand)]
      /\ dnsResolves env before (stripWww (Cand.url cand)) = true
      /\ httpResponds env
           (before ++ [DnsResolve (stripWww (Cand.url cand))])
           (Cand.url cand) = true.
Proof.
  unfold guessDomain, bind, request.
  destruct (enableDomainGuessing CONFIG); cbn [negb];
    [|unfold ret; discriminate].
  intros E. destruct (tryPatterns_found _ _ _ _ E) as (I & G & B).
  split; [exact I|]. rewrite G. cbn [guessCandidate Cand.confidence Cand.source].
  split; [reflexivity|]. split; [reflexivity|].
  rewrite G in B. exact B.
Qed.

Lemma tryPatterns_probes (patterns : list string) :
  forall h, exists d,
    snd (tryPatterns env patterns h) = h ++ d
    /\ List.forallb (fun e => isDns e || isHttp e) d = true
    /\ countEvents isDns d <= List.length patterns
    /\ countEvents isHttp d <= countEvents isDns d.
Proof.
  induction patterns as [|p rest IH]; intros h; cbn [tryPatterns].
  - exists []. rewrite app_nil_r. repeat split; cbn; lia.
  - unfold bind, checkDomainExists, checkWebsiteResponds, request.
    destruct (dnsResolves env h (stripWww p)); cbn [negb].
    + destruct (httpResponds env (h ++ [DnsResolve (stripWww p)]) p).
      * exists [DnsResolve (stripWww p); HttpHead p]. cbn [ret snd].
        rewrite <- app_assoc. repeat split; cbn; lia.
      * destruct (IH ((h ++ [DnsResolve (stripWww p)]) ++ [HttpHead p]))
          as (d & E & F & C1 & C2).
        exists (DnsResolve (stripWww p) :: HttpHead p :: d).
        rewrite E, <- !app_assoc. split; [reflexivity|].
        split; [exact F|]. unfold countEvents in *. cbn in *. lia.
    + destruct (IH (h ++ [DnsResolve (stripWww p)])) as (d & E & F & C1 & C2).
      exists (DnsResolve (stripWww p) :: d).
      rewrite E, <- !app_assoc. split; [reflexivity|].
      split; [exact F|]. unfold countEvents in *. cbn in *. lia.
Qed.

(** X7.  One call of the domain-guessing tier makes at most five name
    lookups and never more HTTP probes than name lookups; it does nothing
    else that can be observed. *)
Theorem guessDomain_probes (companyName city : string) (h : History) :
  exists d,
    snd (guessDomain CONFIG env companyName city h)
    = h ++ Invoke DomainGuessing :: d
    /\ List.forallb (fun e => isDns e || isHttp e) d = true
    /\ countEvents isDns d <= 5
    /\ countEvents isHttp d <= countEvents isDns d.
Proof.
  unfold guessDomain, bind, request.
  destruct (enableDomainGuessing CONFIG); cbn [negb].
  - destruct (tryPatterns_probes
                (generateDomainPatterns CONFIG companyName (Some city))
                (h ++ [Invoke DomainGuessing])) as (d & E & F & C1 & C2).
    exists d. rewrite E, <- app_assoc. split; [reflexivity|].
    split; [exact F|]. split; [|exact C2].
    pose proof (generateDomainPatterns_length CONFIG companyName (Some city))
      as L.
    destruct (truthy (Some city)); lia.
  - exists []. cbn [ret snd]. repeat split; cbn; lia.
Qed.

Lemma tryPatterns_unresolved (patterns : list string) :
  (forall h host, dnsResolves env h host = false) ->
  forall h,
    tryPatterns env patterns h
    = (inr None, h ++ map (fun p => DnsResolve (stripWww p)) patterns).
Proof.
  intros D. induction patterns as [|p rest IH]; intros h; cbn [tryPatterns map].
  - rewrite app_nil_r. reflexivity.
  - unfold bind, checkDomainExists, request. rewrite D. cbn [negb].
    rewrite IH, <- app_assoc. reflexivity.
Qed.

(** X8.  When no name resolves, the tier returns null after exactly one
    name lookup per pattern, in the order of the patterns, and sends no
    HTTP request at all. *)
Theorem guessDomain_unresolved (companyName city : string) (h : History) :
  enableDomainGuessing CONFIG = true ->
  (forall h host, dnsResolves env h host = false) ->
  guessDomain CONFIG env companyName city h
  = (inr None,
     h ++ Invoke DomainGuessing
       :: map (fun p => DnsResolve (stripWww p))
            (generateDomainPatterns CONFIG companyName (Some city))).
Proof.
  intros E D. unfold guessDomain, bind, request. rewrite E. cbn [negb].
  rewrite (tryPatterns_unresolved _ D), <- app_assoc. reflexivity.
Qed.

End GuessFacts.

Section TierFacts.
Context {platform : Platform}.
Variable CONFIG : Config.
Variable env : Env.

Lemma tryPatterns_extends (patterns : list string) :
  extends (fun e => isDns e || isHttp e) (tryPatterns env patterns).
Proof.
  intros h. destruct (tryPatterns_probes env patterns h) as (d & E & F & _).
  exists d. split; assumption.
Qed.

Lemma guessDomain_extends (companyName city : string) :
  extends (fun e => match e with
                    | Invoke DomainGuessing | DnsResolve _ | HttpHead _ => true
                    | _ => false
                    end)
          (guessDomain CONFIG env companyName city).
Proof.
  unfold guessDomain. apply extends_bind.
  - apply extends_request. reflexivity.
  - intros _. destruct (negb (enableDomainGuessing CONFIG));
      [apply extends_ret|].
    eapply extends_weaken; [|apply tryPatterns_extends].
    intros [] H; try discriminate H; reflexivity.
Qed.

Lemma searchGoogleCSE_extends (query : string) :
  extends (fun e => match e with
                    | Invoke GoogleSearch => true
                    | GoogleRequest _ =>
                        negb (isEmpty (googleCseKey CONFIG))
                        && negb (isEmpty (googleCx CONFIG))
                    | _ => false
                    end)
          (searchGoogleCSE CONFIG env query).
Proof.
  unfold searchGoogleCSE. apply extends_bind.
  - apply extends_request. reflexivity.
  - intros _.
    destruct (enableGoogleSearch CONFIG), (isEmpty (googleCseKey CONFIG)),
      (isEmpty (googleCx CONFIG)); cbn [negb orb andb];
      try apply extends_ret.
    apply extends_bind; [apply extends_request; reflexivity|].
    intros [items|]; apply extends_ret.
Qed.

Lemma searchWithOpenAI_extends (companyName city state phone : string) :
  extends (fun e => match e with
                    | Invoke OpenAI => true
                    | OpenAIRequest _ _ _ _ => negb (isEmpty (openaiKey CONFIG))
                    | _ => false
                    end)
          (searchWithOpenAI CONFIG env companyName city state phone).
Proof.
  unfold searchWithOpenAI. apply extends_bind.
  - apply extends_request. reflexivity.
  - intros _.
    destruct (enableOpenAI CONFIG), (isEmpty (openaiKey CONFIG));
      cbn [negb orb andb]; try apply extends_ret.
    apply extends_bind; [apply extends_request; reflexivity|].
    intros [content|]; apply extends_ret.
Qed.

Lemma findWebsite_extends (customer : Customer.t) :
  extends (pipelineEvent CONFIG) (findWebsite CONFIG env customer).
Proof.
  unfold findWebsite.
  apply extends_bind.
  { destruct (enableDomainGuessing CONFIG); [|apply extends_ret].
    eapply extends_weaken; [|apply guessDomain_extends].
    intros [[]| | | | | | | ] H; try discriminate H; reflexivity. }
  intros [g|]; [apply extends_ret|].
  apply extends_bind.
  { destruct (enableGoogleSearch CONFIG); [|apply extends_ret].
    eapply extends_weaken; [|apply searchGoogleCSE_extends].
    intros [[]| | | | | | | ] H; try discriminate H;
      try reflexivity; exact H. }
  intros [g|]; [apply extends_ret|].
  apply extends_bind.
  { destruct (enableOpenAI CONFIG); [|apply extends_ret].
    eapply extends_weaken; [|apply searchWithOpenAI_extends].
    intros [[]| | | | | | | ] H; try discriminate H;
      try reflexivity; exact H. }
  intros [g|]; apply extends_ret.
Qed.

(** X9.  The resolution pipeline only adds tier events to the history: it
    never calls the directory and never prompts.  Without a search key or
    engine identifier it sends no search request, and without an OpenAI
    key no completion request, whatever the toggles. *)
Theorem findWebsite_footprint (customer : Customer.t) (h : History) :
  exists d,
    snd (findWebsite CONFIG env customer h) = h ++ d
    /\ List.forallb isTierEvent d = true
    /\ (isEmpty (googleCseKey CONFIG) = true
        \/ isEmpty (googleCx CONFIG) = true ->
        countEvents isSearchRequest d = 0)
    /\ (isEmpty (openaiKey CONFIG) = true -> countEvents isAiRequest d = 0).
Proof.
  destruct (findWebsite_extends customer h) as (d & E & F).
  exists d. split; [exact E|]. split; [|split].
  - rewrite forallb_forall in *. intros e I. specialize (F e I).
    destruct e; try discriminate F; reflexivity.
  - intros K. apply (countEvents_excluded (pipelineEvent CONFIG)); [|exact F].
    intros e A. destruct e; try reflexivity. cbn [pipelineEvent] in A.
    destruct K as [K|K]; rewrite K in A; cbn in A;
      rewrite ?andb_false_r in A; discriminate A.
  - intros K. apply (countEvents_excluded (pipelineEvent CONFIG)); [|exact F].
    intros e A. destruct e; try reflexivity. cbn [pipelineEvent] in A.
    rewrite K in A. discriminate A.
Qed.

(** X10.  A candidate of the OpenAI tier always has confidence [medium]:
    it is the normalized completion, and the completion did not contain
    the marker [NOT_FOUND]. *)
Theorem searchWithOpenAI_found (companyName city state phone : string)
  (h h' : History) (cand : Cand.t) :
  searchWithOpenAI CONFIG env companyName city state phone h
    = (inr (Some cand), h') ->
  Cand.confidence cand = medium
  /\ Cand.source cand = "openai"%string
  /\ exists content,
      openaiContent env (h ++ [Invoke OpenAI]) companyName city state phone
        = Some content
      /\ includes "NOT_FOUND" (trim content) = false
      /\ Cand.url cand = normalizeDomain CONFIG (trim content).
Proof.
  unfold searchWithOpenAI, bind, request.
  destruct (negb (enableOpenAI CONFIG) || isEmpty (openaiKey CONFIG));
    [unfold ret; discriminate|].
  destruct (openaiContent env (h ++ [Invoke OpenAI]) companyName city state
              phone) as [content|] eqn:C; [|unfold ret; discriminate].
  unfold ret, openaiResult.
  destruct (String.eqb (trim content) "NOT_FOUND"
            || includes "NOT_FOUND" (trim content)) eqn:N; [discriminate|].
  intros E. inversion E; subst. cbn [Cand.confidence Cand.source Cand.url].
  split; [reflexivity|]. split; [reflexivity|]. exists content.
  split; [reflexivity|]. split; [|reflexivity].
  apply orb_false_iff in N. tauto.
Qed.

Lemma sorted_from_item (items : list Item.t) (s : Scored.t) :
  In s (sortByScore (map scoreItem items)) ->
  exists item, In item items /\ s = scoreItem item.
Proof.
  intros I.
  apply (Permutation_in _ (sortByScore_perm (map scoreItem items))) in I.
  apply in_map_iff in I. destruct I as (item & E & I).
  exists item. split; [exact I|symmetry; exact E].
Qed.

(** X11.  A candidate of the search tier with confidence [high] never
    comes from a blocklisted link: the first of its ranked links, the one
    whose hostname is returned, contains none of the blocklisted
    domains. *)
Theorem googleResult_high_not_blocklisted (items : list Item.t)
  (cand : Cand.t) :
  googleResult CONFIG items = Some cand ->
  Cand.confidence cand = high ->
  exists link others,
    Cand.allResults cand = link :: others
    /\ List.existsb (fun bad => includes bad link) badDomains = false.
Proof.
  unfold googleResult. destruct items as [|i items']; [discriminate|].
  destruct (sortByScore (map scoreItem (i :: items'))) as [|top rest] eqn:S;
    [discriminate|].
  destruct (Scored.score top <? 0)%Z; [discriminate|].
  destruct (URL_hostname (Scored.url top)); [|discriminate].
  intros E. inversion E; subst. cbn [Cand.confidence Cand.allResults].
  destruct (10 <=? Scored.score top)%Z eqn:T; [|discriminate]. intros _.
  exists (Scored.url top), (map Scored.url rest). split; [reflexivity|].
  assert (I : In top (sortByScore (map scoreItem (i :: items')))).
  { rewrite S. left. reflexivity. }
  destruct (sorted_from_item _ _ I) as (item & _ & Etop). subst top.
  apply Z.leb_le in T. rewrite scoreItem_score in T.
  cbn [scoreItem Scored.url].
  destruct (List.existsb (fun bad => includes bad (Item.link item)) badDomains);
    [|reflexivity].
  exfalso.
  destruct (includes ".com" (Item.link item)),
    (includes "official" (toLowerCase (orEmpty (Item.title item)))
     || includes "home" (toLowerCase (orEmpty (Item.title item)))),
    (includes "official website" (toLowerCase (orEmpty (Item.snippet item))));
    lia.
Qed.

(** X12.  A candidate of the search tier retains every link of the
    response, each once: its alternates are a permutation of the links of
    the items, and the returned hostname is the normalization of the
    hostname of the first of them. *)
Theorem googleResult_alternates (items : list Item.t) (cand : Cand.t) :
  googleResult CONFIG items = Some cand ->
  Permutation (Cand.allResults cand) (map Item.link items)
  /\ Cand.source cand = "google_cse"%string
  /\ exists link others hostname,
      Cand.allResults cand = link :: others
      /\ URL_hostname link = Some hostname
      /\ Cand.url cand = normalizeDomain CONFIG hostname.
Proof.
  unfold googleResult. destruct items as [|i items']; [discriminate|].
  destruct (sortByScore (map scoreItem (i :: items'))) as [|top rest] eqn:S;
    [discriminate|].
  destruct (Scored.score top <? 0)%Z; [discriminate|].
  destruct (URL_hostname (Scored.url top)) as [hostname|] eqn:P;
    [|discriminate].
  intros E. inversion E; subst.
  cbn [Cand.allResults Cand.source Cand.url].
  split; [|split; [reflexivity|]].
  - change (Scored.url top :: map Scored.url rest)
      with (map Scored.url (top :: rest)).
    rewrite <- S.
    eapply perm_trans;
      [apply Permutation_map, sortByScore_perm|].
    rewrite map_map. apply Permutation_refl.
  - exists (Scored.url top), (map Scored.url rest), hostname.
    split; [reflexivity|]. split; [exact P|reflexivity].
Qed.

End TierFacts.

Section RecordFacts.
Context {platform : Platform}.
Variable CONFIG : Config.
Variable env : Env.

Lemma saves_app (a b : History) : saves (a ++ b) = saves a ++ saves b.
Proof.
  induction a as [|e a IH]; cbn [app saves]; [reflexivity|].
  destruct e; cbn [app]; rewrite IH; reflexivity.
Qed.

Lemma fetched_app (a b : History) : fetched (a ++ b) = fetched a ++ fetched b.
Proof.
  induction a as [|e a IH]; cbn [app fetched]; [reflexivity|].
  destruct e; cbn [app]; rewrite IH; reflexivity.
Qed.

Lemma saves_excluded (allowed : Event -> bool) (d : History) :
  (forall e, allowed e = true -> isSave e = false) ->
  List.forallb allowed d = true -> saves d = [].
Proof.
  intros X F. induction d as [|e d IH]; [reflexivity|].
  cbn [List.forallb] in F. apply andb_prop in F. destruct F as [F1 F2].
  specialize (X e F1). destruct e; try discriminate X; cbn [saves]; auto.
Qed.

Lemma quiet_question (h : History) (q : string) : quiet h (h ++ [Question q]).
Proof. unfold quiet. rewrite saves_app. apply app_nil_r. Qed.

Lemma savedLast_intro (h before : History) (body : string) :
  quiet h before -> savedLast h (before ++ [SaveCustomer body]) body.
Proof. intros Q. exists before. split; [reflexivity|exact Q]. Qed.

(** [findWebsite] resolves and sends nothing to be saved. *)
Lemma findWebsite_quiet (customer : Customer.t) (h : History) :
  exists result h',
    findWebsite CONFIG env customer h = (inr result, h') /\ quiet h h'.
Proof.
  assert (K : exists result tried h',
             findWebsite CONFIG env customer h = (inr result, h')
             /\ Cascade CONFIG env customer
                  [DomainGuessing; GoogleSearch; OpenAI] h tried result h'
             /\ invocations h' = invocations h ++ tried).
  { rewrite findWebsite_unfold.
    apply cascade_step. intros h1.
    apply cascade_step. intros h2.
    apply (cascade_step CONFIG env customer OpenAI [] (ret None)). intros h3.
    exists None, [], h3. split; [reflexivity|]. split.
    - apply Cascade_exhausted.
    - rewrite app_nil_r. reflexivity. }
  destruct K as (result & tried & h' & R & _).
  exists result, h'. split; [exact R|].
  destruct (findWebsite_extends CONFIG env customer h) as (d & E & F).
  rewrite R in E. cbn [snd] in E. subst h'.
  unfold quiet. rewrite saves_app, (saves_excluded (pipelineEvent CONFIG) d).
  - apply app_nil_r.
  - intros e A. destruct e; try reflexivity; discriminate A.
  - exact F.
Qed.

(** Case analysis of a run written out as an equation [E]. *)
Ltac run_cases E :=
  cbv beta iota zeta in E;
  repeat (match type of E with
          | context [if ?b then _ else _] => destruct b eqn:?
          | context [match ?x with inl _ => _ | inr _ => _ end] =>
              destruct x eqn:?
          | context [match ?x with Some _ => _ | None => _ end] =>
              destruct x eqn:?
          end; cbv beta iota zeta in E);
  inversion E; subst; clear E.

Ltac quiet_solve :=
  unfold quiet in *; rewrite ?saves_app; cbn [saves]; rewrite ?app_nil_r;
  try reflexivity; try assumption.

(** What the last part of [processCustomer] does with a website. *)
Lemma persistStage_outcome (opts : Opts) (customer : Customer.t)
  (websiteUrl : option string) (h h' : History) (r : string + Res.t) :
  persistStage CONFIG env opts customer websiteUrl h = (r, h') ->
  (r = inr skippedResult /\ quiet h h')
  \/ exists body,
      savedLast h h' body
      /\ body = saveCustomerBody (saveOutId (Customer.id customer))
                  (saveOutCode (Customer.code customer))
                  (toLowerCase (normalizeDomain CONFIG (orEmpty websiteUrl)))
      /\ ((exists message, r = inl message)
          \/ r = inr (savedResult false)
          \/ (r = inr (updatedResult
                         (normalizeDomain CONFIG (orEmpty websiteUrl)))
              /\ exists before response,
                  h' = before ++ [SaveCustomer body]
                  /\ directorySave env before body = inr response
                  /\ saveSucceeded response = true)).
Proof.
  intros E.
  unfold persistStage, saveCustomerWebsite in E.
  unfold bind, question, request, ret, requestOrReject in E.
  run_cases E;
    try (left; split; [reflexivity|quiet_solve]; fail);
    right; eexists;
    (split; [apply savedLast_intro; quiet_solve|]);
    (split; [reflexivity|]);
    try (left; eexists; reflexivity);
    try (right; left; reflexivity);
    right; right; (split; [reflexivity|]);
    eexists _, _; (split; [reflexivity|]); split; eassumption.
Qed.

(** The first part either goes on without a save, or returns: skipped
    without a save, or after the save of a website the operator typed. *)
Lemma existingWebsiteStage_outcome (opts : Opts) (customer : Customer.t)
  (h h' : History) (r : string + Flow Res.t unit) :
  existingWebsiteStage CONFIG env opts customer h = (r, h') ->
  ((exists u, r = inr (Continue u)) /\ quiet h h')
  \/ (r = inr (Return skippedResult) /\ quiet h h')
  \/ exists body,
      savedLast h h' body
      /\ ((exists message, r = inl message)
          \/ exists saved, r = inr (Return (savedResult saved))).
Proof.
  intros E.
  unfold existingWebsiteStage, saveCustomerWebsite in E.
  unfold bind, question, request, ret, requestOrReject in E.
  run_cases E;
    try (left; split; [eexists; reflexivity|quiet_solve]; fail);
    try (right; left; split; [reflexivity|quiet_solve]; fail);
    right; right; eexists;
    (split; [apply savedLast_intro; quiet_solve|]);
    try (left; eexists; reflexivity);
    right; eexists; reflexivity.
Qed.

(** The middle part never sends anything to be saved and never rejects. *)
Lemma resolveStage_outcome (opts : Opts) (customer : Customer.t)
  (h h' : History) (r : string + Flow Res.t (option string)) :
  resolveStage CONFIG env opts customer h = (r, h') ->
  quiet h h'
  /\ ((exists w, r = inr (Continue w))
      \/ r = inr (Return skippedResult)).
Proof.
  intros E. unfold resolveStage in E.
  destruct (negb (truthy (website opts))).
  - unfold bind at 1 in E.
    destruct (findWebsite_quiet customer h) as (result & h1 & R & Q).
    rewrite R in E.
    unfold bind, question, request, ret in E.
    run_cases E;
      (split; [quiet_solve|]);
      try (left; eexists; reflexivity); right; reflexivity.
  - unfold ret in E. inversion E; subst.
    split; [reflexivity|left; eexists; reflexivity].
Qed.

Lemma quiet_trans (a b c : History) : quiet a b -> quiet b c -> quiet a c.
Proof. unfold quiet. congruence. Qed.

Lemma savedLast_after (a b c : History) (body : string) :
  quiet a b -> savedLast b c body -> savedLast a c body.
Proof.
  intros Q (before & E & S). exists before. split; [exact E|].
  unfold quiet in Q. congruence.
Qed.

(** Every run of [processCustomer] resolves; either nothing is sent to
    be saved, or one payload is, as the last event. *)
Lemma processCustomer_outcome (customerCode : string) (opts : Opts)
  (h h' : History) (r : string + Res.t) :
  processCustomer CONFIG env customerCode opts h = (r, h') ->
  exists res,
    r = inr res
    /\ ((quiet h h' /\ Res.updated res = false)
        \/ exists body,
            savedLast h h' body
            /\ Res.skipped res = false
            /\ (Res.updated res = true ->
                exists u outId outCode before response,
                  Res.url res = Some u
                  /\ body = saveCustomerBody outId outCode (toLowerCase u)
                  /\ h' = before ++ [SaveCustomer body]
                  /\ directorySave env before body = inr response
                  /\ saveSucceeded response = true)).
Proof.
  intros E.
  unfold processCustomer, tryCatch, bind at 1, getCustomer, requestOrReject
    in E.
  assert (Q0 : quiet h (h ++ [GetCustomer customerCode])).
  { unfold quiet. rewrite saves_app. apply app_nil_r. }
  destruct (directoryCustomer env h customerCode) as [message|customer].
  { unfold ret in E. inversion E; subst. eexists. split; [reflexivity|].
    left. split; [exact Q0|reflexivity]. }
  unfold bind at 1 in E.
  destruct (existingWebsiteStage CONFIG env opts customer
              (h ++ [GetCustomer customerCode])) as [r1 h1] eqn:E1.
  apply existingWebsiteStage_outcome in E1.
  destruct E1 as [[[u R1] Q1]|[[R1 Q1]|(body & S1 & [[m R1]|[saved R1]])]];
    subst r1.
  - unfold bind at 1 in E.
    destruct (resolveStage CONFIG env opts customer h1) as [r2 h2] eqn:E2.
    apply resolveStage_outcome in E2. destruct E2 as [Q2 [[w R2]|R2]];
      subst r2.
    + destruct (persistStage CONFIG env opts customer w h2) as [r3 h3] eqn:E3.
      pose proof (quiet_trans _ _ _ Q0 (quiet_trans _ _ _ Q1 Q2)) as Q.
      apply persistStage_outcome in E3.
      destruct E3 as [[R3 Q3]|(body & S3 & B3 & [[m R3]|[R3|[R3 X3]]])];
        subst r3.
      * inversion E; subst. eexists. split; [reflexivity|]. left.
        split; [exact (quiet_trans _ _ _ Q Q3)|reflexivity].
      * unfold ret in E. inversion E; subst. eexists. split; [reflexivity|].
        right. eexists. split; [exact (savedLast_after _ _ _ _ Q S3)|].
        split; [reflexivity|discriminate].
      * inversion E; subst. eexists. split; [reflexivity|].
        right. eexists. split; [exact (savedLast_after _ _ _ _ Q S3)|].
        split; [reflexivity|discriminate].
      * inversion E; subst r h'. eexists. split; [reflexivity|].
        right. exists body. split; [exact (savedLast_after _ _ _ _ Q S3)|].
        split; [reflexivity|]. intros _.
        destruct X3 as (before & response & X1 & X2 & X4).
        eexists _, _, _, before, response.
        split; [reflexivity|]. split; [exact B3|].
        split; [exact X1|]. split; [exact X2|exact X4].
    + unfold ret in E. inversion E; subst. eexists. split; [reflexivity|].
      left. split; [|reflexivity].
      exact (quiet_trans _ _ _ Q0 (quiet_trans _ _ _ Q1 Q2)).
  - unfold ret in E. inversion E; subst. eexists. split; [reflexivity|].
    left. split; [exact (quiet_trans _ _ _ Q0 Q1)|reflexivity].
  - unfold ret in E. inversion E; subst. eexists. split; [reflexivity|].
    right. exists body. split; [exact (savedLast_after _ _ _ _ Q0 S1)|].
    split; [reflexivity|discriminate].
  - unfold ret in E. inversion E; subst. eexists. split; [reflexivity|].
    right. exists body. split; [exact (savedLast_after _ _ _ _ Q0 S1)|].
    split; [reflexivity|discriminate].
Qed.

(** X13.  When the directory rejects the lookup, the record fails with
    the message of the rejection, and nothing else happens: no tier is
    invoked, nothing is asked and nothing is saved. *)
Theorem processCustomer_fetch_rejected (customerCode message : string)
  (opts : Opts) (h : History) :
  directoryCustomer env h customerCode = inl message ->
  processCustomer CONFIG env customerCode opts h
  = (inr (errorResult message), h ++ [GetCustomer customerCode]).
Proof.
  intros D.
  unfold processCustomer, tryCatch, bind at 1, getCustomer, requestOrReject.
  rewrite D. reflexivity.
Qed.

(** X14.  One record causes at most one save request, and a record that is
    reported as skipped caused none. *)
Theorem processCustomer_saves_at_most_once (customerCode : string)
  (opts : Opts) (h : History) :
  exists res h',
    processCustomer CONFIG env customerCode opts h = (inr res, h')
    /\ List.length (saves h') <= List.length (saves h) + 1
    /\ (Res.skipped res = true -> saves h' = saves h).
Proof.
  destruct (processCustomer CONFIG env customerCode opts h) as [r h'] eqn:E.
  destruct (processCustomer_outcome _ _ _ _ _ E)
    as (res & R & [[Q U]|(body & (before & B & S) & K & _)]); subst r.
  - exists res, h'. split; [reflexivity|]. unfold quiet in Q. rewrite Q.
    split; [lia|reflexivity].
  - exists res, h'. split; [reflexivity|]. subst h'.
    rewrite saves_app, length_app, S. cbn [saves List.length].
    split; [lia|]. rewrite K. discriminate.
Qed.

(** X15.  A record is reported as updated only when the directory accepted
    a save: the last event of the run is a save request whose website
    value is the reported URL in lower case, and the response to it
    carried the success marker. *)
Theorem processCustomer_updated_saved (customerCode : string) (opts : Opts)
  (h h' : History) (res : Res.t) :
  processCustomer CONFIG env customerCode opts h = (inr res, h') ->
  Res.updated res = true ->
  exists u outId outCode before response,
    Res.url res = Some u
    /\ h' = before
            ++ [SaveCustomer (saveCustomerBody outId outCode (toLowerCase u))]
    /\ saves before = saves h
    /\ directorySave env before
         (saveCustomerBody outId outCode (toLowerCase u)) = inr response
    /\ saveSucceeded response = true.
Proof.
  intros E U.
  destruct (processCustomer_outcome _ _ _ _ _ E)
    as (res' & R & [[Q U']|(body & (before' & B & S) & K & X)]);
    inversion R; subst res'.
  - congruence.
  - destruct (X U) as (u & outId & outCode & before & response
                       & X1 & X2 & X3 & X4 & X5).
    subst body. exists u, outId, outCode, before, response.
    split; [exact X1|]. split; [exact X3|].
    split; [|split; [exact X4|exact X5]].
    rewrite X3 in B. apply app_inj_tail in B. destruct B as [B _].
    subst before'. exact S.
Qed.

End RecordFacts.
(* ================================================================= *)
(** ** Further facts: the requests of one record and of a batch *)

Section RequestFacts.
Context {platform : Platform}.
Variable CONFIG : Config.
Variable env : Env.

Lemma question_extends (allowed : Event -> bool) (q : string) :
  allowed (Question q) = true -> extends allowed (question env q).
Proof. intros A. apply extends_request, A. Qed.

Lemma saveCustomerWebsite_extends (allowed : Event -> bool)
  (customerId customerCode websiteUrl : string) :
  (forall body, allowed (SaveCustomer body) = true) ->
  extends allowed (saveCustomerWebsite env customerId customerCode websiteUrl).
Proof.
  intros A. unfold saveCustomerWebsite. cbv zeta.
  apply extends_bind; [apply extends_requestOrReject, A|].
  intros response. apply extends_ret.
Qed.

(** One step of the proof that a run adds allowed events only. *)
Ltac extends_step :=
  cbv beta iota zeta; cbn [negb andb orb];
  first
    [ apply extends_ret
    | apply question_extends; solve [auto]
    | apply saveCustomerWebsite_extends; solve [auto]
    | eapply extends_weaken; [|apply findWebsite_extends]; assumption
    | apply extends_bind; [|intros ?]
    | match goal with
      | |- extends _ (if ?b then _ else _) => destruct b eqn:?
      | |- extends _ (match ?x with Some _ => _ | None => _ end) =>
          destruct x eqn:?
      | |- extends _ (match ?x with Return _ => _ | Continue _ => _ end) =>
          destruct x eqn:?
      end ].

(** What [processCustomer] does once the record is there.  Prompts are
    left out in unattended mode, the tiers when a website is given. *)
Lemma processCustomer_body_extends (allowed : Event -> bool) (opts : Opts)
  (customer : Customer.t) :
  (nonInteractive opts = true \/ forall q, allowed (Question q) = true) ->
  (truthy (website opts) = true
   \/ forall e, pipelineEvent CONFIG e = true -> allowed e = true) ->
  (forall body, allowed (SaveCustomer body) = true) ->
  extends allowed
    (bind (existingWebsiteStage CONFIG env opts customer)
       (fun existing =>
          match existing with
          | Return r => ret r
          | Continue _ =>
              bind (resolveStage CONFIG env opts customer)
                (fun resolved =>
                   match resolved with
                   | Return r => ret r
                   | Continue websiteUrl =>
                       persistStage CONFIG env opts customer websiteUrl
                   end)
          end)).
Proof.
  intros [NI|Q] [W|P] S;
    unfold existingWebsiteStage, resolveStage, persistStage; cbv zeta;
    rewrite ?NI, ?W; repeat extends_step.
Qed.

Lemma processCustomer_extends (allowed : Event -> bool)
  (customerCode : string) (opts : Opts) :
  allowed (GetCustomer customerCode) = true ->
  (nonInteractive opts = true \/ forall q, allowed (Question q) = true) ->
  (truthy (website opts) = true
   \/ forall e, pipelineEvent CONFIG e = true -> allowed e = true) ->
  (forall body, allowed (SaveCustomer body) = true) ->
  extends allowed (processCustomer CONFIG env customerCode opts).
Proof.
  intros G Q P S. unfold processCustomer.
  apply extends_tryCatch; [|intros message; apply extends_ret].
  apply extends_bind; [apply extends_requestOrReject, G|].
  intros customer. apply processCustomer_body_extends; assumption.
Qed.

(** X16.  When a website is handed to [processCustomer], no tier is
    invoked and no name lookup, HTTP probe, search or OpenAI request is
    made for the record. *)
Theorem processCustomer_given_website_no_tier (customerCode : string)
  (opts : Opts) (h : History) :
  truthy (website opts) = true ->
  exists d,
    snd (processCustomer CONFIG env customerCode opts h) = h ++ d
    /\ countEvents isTierEvent d = 0.
Proof.
  intros W.
  destruct (processCustomer_extends (fun e => negb (isTierEvent e))
              customerCode opts) with (h := h) as (d & E & F);
    try reflexivity; auto.
  exists d. split; [exact E|].
  apply (countEvents_excluded (fun e => negb (isTierEvent e))); [|exact F].
  intros e A. apply negb_true_iff, A.
Qed.

(** X17.  In unattended mode [processCustomer] never asks anything. *)
Theorem processCustomer_unattended_no_question (customerCode : string)
  (opts : Opts) (h : History) :
  nonInteractive opts = true ->
  exists d,
    snd (processCustomer CONFIG env customerCode opts h) = h ++ d
    /\ countEvents isQuestion d = 0.
Proof.
  intros NI.
  destruct (processCustomer_extends (fun e => negb (isQuestion e))
              customerCode opts) with (h := h) as (d & E & F);
    try reflexivity; auto.
  { right. intros e A. destruct e; try reflexivity; discriminate A. }
  exists d. split; [exact E|].
  apply (countEvents_excluded (fun e => negb (isQuestion e))); [|exact F].
  intros e A. apply negb_true_iff, A.
Qed.

Lemma fetched_excluded (d : History) :
  List.forallb (fun e => negb (isGet e)) d = true -> fetched d = [].
Proof.
  induction d as [|e d IH]; [reflexivity|].
  cbn [List.forallb]. intros F. apply andb_prop in F. destruct F as [F1 F2].
  destruct e; try discriminate F1; cbn [fetched]; auto.
Qed.

(** [processCustomer] fetches its record, and no other. *)
Lemma processCustomer_fetched (customerCode : string) (opts : Opts)
  (h : History) :
  fetched (snd (processCustomer CONFIG env customerCode opts h))
  = fetched h ++ [customerCode].
Proof.
  unfold processCustomer, tryCatch, bind at 1, getCustomer, requestOrReject.
  destruct (directoryCustomer env h customerCode) as [message|customer].
  { cbn [ret snd]. rewrite fetched_app. reflexivity. }
  match goal with
  | |- context [bind ?m ?k (h ++ [GetCustomer customerCode])] =>
      destruct (processCustomer_body_extends (fun e => negb (isGet e))
                  opts customer) with (h := h ++ [GetCustomer customerCode])
        as (d & E & F);
      [right; reflexivity
      |right; intros e A; destruct e; try reflexivity; discriminate A
      |reflexivity|];
      destruct (bind m k (h ++ [GetCustomer customerCode]))
        as [[message|res] h1]
  end; cbn [snd ret] in *; subst h1;
    rewrite !fetched_app, (fetched_excluded d F), app_nil_r; reflexivity.
Qed.

Lemma processRows_requests (opts : Opts) (items : list Row) :
  forall (results : Tally) (detailed : list Detail.t) (h : History),
    let h' := snd (processRows CONFIG env opts items results detailed h) in
    fetched h' = fetched h ++ map rowCode items
    /\ List.length (saves h') <= List.length (saves h) + List.length items.
Proof.
  induction items as [|item rest IH]; intros results detailed h;
    cbn [processRows map List.length].
  - cbn [ret snd]. rewrite app_nil_r. split; [reflexivity|lia].
  - cbv zeta. unfold bind.
    pose proof (processCustomer_fetched (rowCode item)
                  {| nonInteractive := nonInteractive opts;
                     website := rowWebsite item;
                     force := force opts;
                     autoConfirm := autoConfirm opts |} h) as Fe.
    destruct (processCustomer CONFIG env (rowCode item)
                {| nonInteractive := nonInteractive opts;
                   website := rowWebsite item;
                   force := force opts;
                   autoConfirm := autoConfirm opts |} h) as [r h1] eqn:E.
    cbn [snd] in Fe.
    assert (L : List.length (saves h1) <= List.length (saves h) + 1).
    { destruct (processCustomer_outcome _ _ _ _ _ _ _ E)
        as (res' & _ & [[Q _]|(body & (before & B & S) & _)]).
      - unfold quiet in Q. rewrite Q. lia.
      - subst h1. rewrite saves_app, length_app, S. cbn [saves List.length].
        lia. }
    destruct (processCustomer_outcome _ _ _ _ _ _ _ E) as (res & R & _).
    subst r.
    destruct (tallyStep (rowCode item) res results detailed)
      as [results1 detailed1].
    destruct (IH results1 detailed1 h1) as [I1 I2].
    split.
    + rewrite I1, Fe, <- app_assoc. reflexivity.
    + lia.
Qed.

(** X18.  A batch fetches the record of every row exactly once, in the
    order of the input and whatever happens to the rows before, and sends
    at most one save request per row. *)
Theorem processCustomerList_requests (customerCodes : list Row) (opts : Opts)
  (h : History) :
  let h' := snd (processCustomerList CONFIG env customerCodes opts h) in
  fetched h' = fetched h ++ map rowCode customerCodes
  /\ List.length (saves h')
     <= List.length (saves h) + List.length customerCodes.
Proof. unfold processCustomerList. apply processRows_requests. Qed.





End RequestFacts.
(* ================================================================= *)
(** ** Further facts: the input file *)

Section CsvFacts.

Local Open Scope string_scope.

Lemma splitLines_cons (c : ascii) (s' : string) :
  splitLines (String c s') =
  if Ascii.eqb c lf then EmptyString :: splitLines s'
  else
    match s' with
    | String d s'' =>
        if Ascii.eqb c cr && Ascii.eqb d lf
        then EmptyString :: splitLines s''
        else
          match splitLines s' with
          | l :: ls => String c l :: ls
          | [] => [String c EmptyString]
          end
    | EmptyString => [String c EmptyString]
    end.
Proof. reflexivity. Qed.

Lemma notBreak_inv (c : ascii) :
  notBreak c = true -> Ascii.eqb c lf = false /\ Ascii.eqb c cr = false.
Proof.
  unfold notBreak. intros H. apply andb_prop in H. destruct H as [H1 H2].
  split; apply negb_true_iff; assumption.
Qed.

(** A line followed by a line break, in both notations of the break. *)
Lemma splitLines_line (x s : string) :
  Str.forallb notBreak x = true ->
  splitLines (x ++ String lf s) = x :: splitLines s
  /\ splitLines (x ++ String cr (String lf s)) = x :: splitLines s.
Proof.
  induction x as [|c x IH]; cbn [append Str.forallb].
  - intros _. split; rewrite splitLines_cons.
    + rewrite Ascii.eqb_refl. reflexivity.
    + change (Ascii.eqb cr lf) with false. cbv iota.
      rewrite !Ascii.eqb_refl. reflexivity.
  - intros H. apply andb_prop in H. destruct H as [H1 H2].
    destruct (notBreak_inv c H1) as [N1 N2].
    destruct (IH H2) as [I1 I2].
    split; rewrite splitLines_cons, N1, N2; cbn [andb].
    + destruct x; cbn [append] in *; rewrite I1; reflexivity.
    + destruct x; cbn [append] in *; rewrite I2; reflexivity.
Qed.

Lemma splitLines_last (x : string) :
  Str.forallb notBreak x = true -> x <> EmptyString -> splitLines x = [x].
Proof.
  induction x as [|c x IH]; cbn [Str.forallb]; [congruence|].
  intros H _. apply andb_prop in H. destruct H as [H1 H2].
  destruct (notBreak_inv c H1) as [N1 N2].
  rewrite splitLines_cons, N1, N2. cbn [andb].
  destruct x as [|d x]; [reflexivity|].
  rewrite IH; [reflexivity|exact H2|discriminate].
Qed.

Lemma splitLines_single (x : string) :
  Str.forallb notBreak x = true -> splitLines x = [x].
Proof.
  destruct x as [|c x]; [reflexivity|].
  intros H. apply splitLines_last; [exact H|discriminate].
Qed.

Lemma splitLines_join (lines : list string) :
  List.forallb (Str.forallb notBreak) lines = true ->
  lines <> [] ->
  splitLines (join nl lines) = lines
  /\ splitLines (join crlf lines) = lines.
Proof.
  induction lines as [|x rest IH]; [congruence|].
  cbn [List.forallb]. intros H _. apply andb_prop in H. destruct H as [H1 H2].
  destruct rest as [|y rest'].
  - cbn [join]. split; apply splitLines_single, H1.
  - destruct IH as [I1 I2]; [exact H2|discriminate|].
    change (join nl (x :: y :: rest'))
      with (x ++ String lf (join nl (y :: rest'))).
    change (join crlf (x :: y :: rest'))
      with (x ++ String cr (String lf (join crlf (y :: rest')))).
    destruct (splitLines_line x (join nl (y :: rest')) H1) as [L1 _].
    destruct (splitLines_line x (join crlf (y :: rest')) H1) as [_ L2].
    rewrite L1, L2, I1, I2. split; reflexivity.
Qed.

(** The rows of a file are those of its lines, whichever of the two line
    breaks separates them. *)
Lemma readCsvFile_lines (lines : list string) :
  List.forallb (Str.forallb notBreak) lines = true ->
  readCsvFile (join nl lines)
  = map lineRow (List.filter isDataLine (map trim lines))
  /\ readCsvFile (join crlf lines)
     = map lineRow (List.filter isDataLine (map trim lines)).
Proof.
  intros H. destruct lines as [|x rest]; [split; reflexivity|].
  unfold readCsvFile.
  destruct (splitLines_join (x :: rest) H) as [E1 E2]; [discriminate|].
  rewrite E1, E2. split; reflexivity.
Qed.

Lemma splitCommas_cons (c : ascii) (s' : string) :
  splitCommas (String c s') =
  if Ascii.eqb c ","
  then EmptyString :: splitCommas s'
  else
    match splitCommas s' with
    | l :: ls => String c l :: ls
    | [] => [String c EmptyString]
    end.
Proof. reflexivity. Qed.

Lemma isFieldChar_inv (c : ascii) :
  isFieldChar c = true -> notBreak c = true /\ Ascii.eqb c "," = false.
Proof.
  unfold isFieldChar. intros H. apply andb_prop in H. destruct H as [H1 H2].
  split; [exact H1|]. apply negb_true_iff, H2.
Qed.

Lemma splitCommas_field (x : string) :
  Str.forallb isFieldChar x = true ->
  splitCommas x = [x]
  /\ forall s, splitCommas (x ++ String "," s) = x :: splitCommas s.
Proof.
  induction x as [|c x IH]; cbn [append Str.forallb].
  - intros _. split; [reflexivity|]. intros s.
    rewrite splitCommas_cons, Ascii.eqb_refl. reflexivity.
  - intros H. apply andb_prop in H. destruct H as [H1 H2].
    destruct (isFieldChar_inv c H1) as [_ N].
    destruct (IH H2) as [I1 I2].
    split; [|intros s]; rewrite splitCommas_cons, N.
    + rewrite I1. reflexivity.
    + rewrite I2. reflexivity.
Qed.

Lemma dropWhileEnd_append (p : ascii -> bool) (a b : string) :
  dropWhileEnd p b <> EmptyString ->
  dropWhileEnd p (a ++ b) = a ++ dropWhileEnd p b.
Proof.
  intros N. induction a as [|x a IH]; cbn [append]; [reflexivity|].
  cbn [dropWhileEnd]. rewrite IH.
  destruct (a ++ dropWhileEnd p b) eqn:E; [|reflexivity].
  destruct a; cbn [append] in E; [contradiction|discriminate].
Qed.

Lemma isPlainField_inv (w : string) :
  isPlainField w = true ->
  trimStart w = w /\ trimEnd w = w /\ Str.forallb isFieldChar w = true.
Proof.
  unfold isPlainField. intros H. apply andb_prop in H. destruct H as [H1 H2].
  apply String.eqb_eq in H1. destruct (trim_fixed w H1) as [T1 T2].
  auto.
Qed.

Lemma isPlainCode_inv (c : string) :
  isPlainCode c = true ->
  exists a c', c = String a c' /\ isSpace a = false
               /\ Ascii.eqb "#" a = false /\ isPlainField c = true.
Proof.
  unfold isPlainCode. intros H. apply andb_prop in H. destruct H as [H H3].
  apply andb_prop in H. destruct H as [H1 H2].
  destruct c as [|a c']; [discriminate H1|].
  exists a, c'. split; [reflexivity|].
  destruct (isPlainField_inv _ H3) as [T _].
  pose proof (dropWhile_head isSpace (String a c')) as D.
  unfold trimStart in T. rewrite T in D. split; [exact D|].
  split; [|exact H3].
  cbn [startsWith] in H2. rewrite andb_true_r in H2.
  apply negb_true_iff, H2.
Qed.

(** The line of a plain row is kept as it is and read back as the row. *)
Lemma rowLine_read (r : Row) :
  isPlainRow r = true ->
  Str.forallb notBreak (rowLine r) = true
  /\ trim (rowLine r) = rowLine r
  /\ isDataLine (rowLine r) = true
  /\ lineRow (rowLine r) = r.
Proof.
  assert (B : forall x, Str.forallb isFieldChar x = true ->
                        Str.forallb notBreak x = true).
  { intros x. apply forallb_impl. intros c H.
    apply (isFieldChar_inv c H). }
  assert (T : forall x, isPlainField x = true -> trim x = x).
  { intros x H. unfold isPlainField in H. apply andb_prop in H.
    destruct H as [H _]. apply String.eqb_eq, H. }
  destruct r as [c|c w]; cbn [isPlainRow rowLine].
  - intros H. destruct (isPlainCode_inv c H) as (a & c' & E & S & N & F).
    destruct (isPlainField_inv c F) as (_ & _ & K).
    split; [apply B, K|]. split; [apply T, F|]. split.
    + subst c. unfold isDataLine. cbn [isEmpty startsWith negb andb].
      rewrite N. reflexivity.
    + unfold lineRow. destruct (splitCommas_field c K) as [E1 _].
      rewrite E1. cbn [map]. rewrite (T c F). reflexivity.
  - intros H. apply andb_prop in H. destruct H as [Hc Hw].
    destruct (isPlainCode_inv c Hc) as (a & c' & E & S & N & F).
    destruct (isPlainField_inv c F) as (_ & _ & Kc).
    destruct (isPlainField_inv w Hw) as (_ & Tw & Kw).
    split; [|split; [|split]].
    + rewrite forallb_append, (B c Kc). cbn [append Str.forallb andb].
      rewrite (B w Kw). reflexivity.
    + unfold trim, trimStart. subst c. cbn [append dropWhile]. rewrite S.
      unfold trimEnd in *.
      change (String a (c' ++ String "," w))
        with (String a c' ++ String "," w).
      assert (D : dropWhileEnd isSpace (String "," w) = String "," w).
      { rewrite dropWhileEnd_cons by reflexivity. rewrite Tw. reflexivity. }
      rewrite dropWhileEnd_append; rewrite D; [reflexivity|discriminate].
    + subst c. unfold isDataLine. cbn [append isEmpty startsWith negb andb].
      rewrite N. reflexivity.
    + unfold lineRow. destruct (splitCommas_field c Kc) as [_ E2].
      destruct (splitCommas_field w Kw) as [E1 _].
      change (c ++ "," ++ w) with (c ++ String "," w).
      rewrite E2, E1. cbn [map]. rewrite (T c F), (T w Hw). reflexivity.
Qed.

Lemma rowLines_read (rows : list Row) :
  List.forallb isPlainRow rows = true ->
  List.forallb (Str.forallb notBreak) (map rowLine rows) = true
  /\ map lineRow (List.filter isDataLine (map trim (map rowLine rows)))
     = rows.
Proof.
  induction rows as [|r rows IH]; [split; reflexivity|].
  cbn [List.forallb map]. intros H. apply andb_prop in H.
  destruct H as [H1 H2]. destruct (IH H2) as [I1 I2].
  destruct (rowLine_read r H1) as (B & T & D & L).
  rewrite B, I1, T. cbn [List.filter]. rewrite D. cbn [map].
  rewrite L, I2. split; reflexivity.
Qed.

(** X20.  Reading back a file that holds one plain row per line, a code
    or a code and a website with a comma between them, gives the rows in
    the order of the lines, for Unix and for Windows line breaks. *)
Theorem readCsvFile_round_trip (rows : list Row) :
  List.forallb isPlainRow rows = true ->
  readCsvFile (join nl (map rowLine rows)) = rows
  /\ readCsvFile (join crlf (map rowLine rows)) = rows.
Proof.
  intros H. destruct (rowLines_read rows H) as [B R].
  destruct (readCsvFile_lines (map rowLine rows) B) as [E1 E2].
  rewrite E1, E2, R. split; reflexivity.
Qed.

(** X21.  A line that is empty after trimming, or whose first character
    after trimming is [#], adds nothing to the rows: the file reads as
    it does without that line. *)
Theorem readCsvFile_ignores_line (before after : list string) (l : string) :
  List.forallb (Str.forallb notBreak) (before ++ l :: after) = true ->
  isEmpty (trim l) = true \/ startsWith "#" (trim l) = true ->
  readCsvFile (join nl (before ++ l :: after))
  = readCsvFile (join nl (before ++ after))
  /\ readCsvFile (join crlf (before ++ l :: after))
     = readCsvFile (join crlf (before ++ after)).
Proof.
  intros B D.
  assert (B' : List.forallb (Str.forallb notBreak) (before ++ after) = true).
  { rewrite forallb_app in *. cbn [List.forallb] in B.
    apply andb_prop in B. destruct B as [B1 B2].
    apply andb_prop in B2. destruct B2 as [_ B2].
    rewrite B1, B2. reflexivity. }
  destruct (readCsvFile_lines _ B) as [E1 E2].
  destruct (readCsvFile_lines _ B') as [F1 F2].
  rewrite E1, E2, F1, F2.
  assert (X : isDataLine (trim l) = false).
  { unfold isDataLine. destruct D as [D|D]; rewrite D; cbn [negb andb].
    - reflexivity.
    - apply andb_false_r. }
  rewrite !map_app, !filter_app. cbn [map List.filter]. rewrite X.
  split; reflexivity.
Qed.

End CsvFacts.
(* ================================================================= *)
(** ** Further facts: response decoding and the command line *)

Section DecodeFacts.

Local Open Scope string_scope.



















End DecodeFacts.

Section ArgFacts.

Local Open Scope string_scope.

Lemma parseTokens_cons (a : string) (rest : list string) :
  parseTokens (a :: rest) =
  if startsWith "--" a then
    match rest with
    | next :: rest' =>
        if isEmpty next || startsWith "--" next
        then (drop 2 a, Flag) :: parseTokens rest
        else (drop 2 a, Value next) :: parseTokens rest'
    | [] => [(drop 2 a, Flag)]
    end
  else parseTokens rest.
Proof. reflexivity. Qed.



(** X25.  Whatever the command line, a value that [parseArgs] returns is
    never empty and never starts with [--]: an option followed by another
    option, by an empty argument or by nothing is a flag.  Every key is
    an argument that starts with [--], without these two characters. *)
Theorem parseArgs_values (argv : list string) (key : string) (v : ArgValue) :
  In (key, v) (parseArgs argv) ->
  In ("--" ++ key) (skipn 2 argv)
  /\ isOption (key, v) = true
  /\ match v with
     | Flag => True
     | Value s => In s (skipn 3 argv)
     end.
Proof.
  unfold parseArgs.
  assert (K : forall a, startsWith "--" a = true -> "--" ++ drop 2 a = a).
  { intros a H. destruct a as [|x [|y a]]; cbn [startsWith] in H;
      [discriminate H|rewrite andb_false_r in H; discriminate H|].
    apply andb_prop in H. destruct H as [H1 H].
    apply andb_prop in H. destruct H as [H2 _].
    apply Ascii.eqb_eq in H1. apply Ascii.eqb_eq in H2. subst.
    reflexivity. }
  assert (G : forall tokens,
             In (key, v) (parseTokens tokens) ->
             In ("--" ++ key) tokens
             /\ isOption (key, v) = true
             /\ match v with
                | Flag => True
                | Value s => In s (tl tokens)
                end).
  { intros tokens.
    remember (List.length tokens) as n eqn:L.
    revert tokens L.
    induction n as [n IH] using lt_wf_ind. intros tokens L.
    destruct tokens as [|a rest]; [intros []|].
    rewrite parseTokens_cons. cbn [List.length] in L.
    destruct (startsWith "--" a) eqn:A.
    - destruct rest as [|next rest'].
      + intros [E|[]]. injection E as <- <-. 
        split; [left; symmetry; exact (K a A)|]. split; [reflexivity|exact I].
      + destruct (isEmpty next || startsWith "--" next) eqn:N.
        * intros [E|I'].
          -- injection E as <- <-. 
             split; [left; symmetry; exact (K a A)|]. split; [reflexivity|exact I].
          -- destruct (IH (List.length (next :: rest'))
                         ltac:(cbn [List.length] in *; lia)
                         (next :: rest') eq_refl I') as (I1 & I2 & I3).
             split; [right; exact I1|]. split; [exact I2|].
             destruct v; [exact I|]. cbn [tl] in *. right. exact I3.
        * intros [E|I'].
          -- injection E as <- <-. 
             split; [left; symmetry; exact (K a A)|].
             apply orb_false_elim in N. destruct N as [N1 N2].
             unfold isOption. cbn [snd]. rewrite N1, N2.
             split; [reflexivity|]. left. reflexivity.
          -- destruct (IH (List.length rest')
                         ltac:(cbn [List.length] in *; lia)
                         rest' eq_refl I') as (I1 & I2 & I3).
             split; [right; right; exact I1|]. split; [exact I2|].
             destruct v; [exact I|]. cbn [tl]. right.
             destruct rest'; [destruct I3|]. cbn [tl] in I3. right. exact I3.
    - intros I'.
      destruct (IH (List.length rest) ltac:(lia) rest eq_refl I')
        as (I1 & I2 & I3).
      split; [right; exact I1|]. split; [exact I2|].
      destruct v; [exact I|]. cbn [tl].
      destruct rest; [destruct I3|]. cbn [tl] in I3. right. exact I3. }
  intros H. destruct (G _ H) as (G1 & G2 & G3).
  split; [exact G1|]. split; [exact G2|].
  destruct v; [exact I|].
  replace (skipn 3 argv) with (tl (skipn 2 argv))
    by (destruct argv as [|a0 [|a1 [|a2 rest]]]; reflexivity).
  exact G3.
Qed.

End ArgFacts.
(* ================================================================= *)
(** ** Further facts: the TypeScript sibling *)

Section TsFacts.
Context {platform : Platform}.
Variable env : Env.

Local Open Scope string_scope.

(** X26.  Unattended and with no website given, the sibling does nothing
    but fetch the record: the record is skipped, or failed with the
    message of the directory when the lookup is rejected. *)
Theorem WebsitesTs_processCustomer_unattended_bare (rl : bool)
  (customerCode : string) (opts : Opts) (h : History) :
  nonInteractive opts = true ->
  truthy (website opts) = false ->
  WebsitesTs.processCustomer env rl customerCode opts h
  = (inr match directoryCustomer env h customerCode with
         | inl message => errorResult message
         | inr _ => skippedResult
         end,
     (h ++ [GetCustomer customerCode])%list).
Proof.
  intros NI W.
  unfold WebsitesTs.processCustomer, tryCatch, bind at 1, getCustomer,
    requestOrReject.
  destruct (directoryCustomer env h customerCode) as [message|customer];
    [reflexivity|].
  unfold bind, WebsitesTs.overwriteStage, WebsitesTs.websiteStage.
  cbv zeta. rewrite NI, W. cbn [negb].
  destruct (negb (isBlank (Customer.currentWebsite customer))
            && negb (force opts)); reflexivity.
Qed.

(** X27.  Unattended, with a website given for a record that has none
    (or with [force]), the sibling sends exactly one save request: the
    given website as [normalizeDomain] returns it, with no lower-casing
    of its own, under the ID and code of the record ([0] and the
    requested code where the record has none).  A rejected save fails
    the record with the message; otherwise the result is a success
    exactly when the response carries the success marker, and it never
    reports the URL. *)
Theorem WebsitesTs_processCustomer_given_website (rl : bool)
  (customerCode w : string) (opts : Opts) (customer : Customer.t)
  (h : History) :
  nonInteractive opts = true ->
  website opts = Some w ->
  isBlank w = false ->
  directoryCustomer env h customerCode = inr customer ->
  isBlank (Customer.currentWebsite customer) = true \/ force opts = true ->
  let body :=
    saveCustomerBody
      (if isBlank (Customer.id customer) then "0" else Customer.id customer)
      (if isBlank (Customer.code customer) then customerCode
       else Customer.code customer)
      (WebsitesTs.normalizeDomain w) in
  WebsitesTs.processCustomer env rl customerCode opts h
  = (inr match directorySave env (h ++ [GetCustomer customerCode])%list body
         with
         | inl message => errorResult message
         | inr response => savedResult (saveSucceeded response)
         end,
     (h ++ [GetCustomer customerCode] ++ [SaveCustomer body])%list).
Proof.
  intros NI W B D F body.
  assert (T : truthy (Some w) = true).
  { destruct w; [discriminate B|reflexivity]. }
  assert (G : negb (isBlank (Customer.currentWebsite customer))
              && negb (force opts) = false).
  { destruct F as [F|F]; rewrite F; cbn [negb andb];
      [reflexivity|apply andb_false_r]. }
  unfold WebsitesTs.processCustomer, tryCatch, bind at 1, getCustomer,
    requestOrReject.
  rewrite D.
  unfold bind at 1, WebsitesTs.overwriteStage. rewrite G.
  unfold ret at 1. cbv beta iota.
  unfold bind at 1, WebsitesTs.websiteStage. cbv zeta. rewrite W, T.
  cbn [negb]. unfold ret at 1. cbv beta iota.
  unfold WebsitesTs.saveStage. rewrite T. cbn [negb orb orEmpty].
  rewrite B, NI. cbn [negb]. cbv zeta.
  unfold bind at 1, ret at 1. cbv beta iota. cbn [negb].
  unfold bind at 1.
  rewrite WebsitesTs_saveCustomerWebsite_run. cbv zeta. fold body.
  rewrite <- app_assoc.
  destruct (directorySave env (h ++ [GetCustomer customerCode])%list body);
    reflexivity.
Qed.

(** Without a readline interface the sibling does not get beyond the
    lookup of the record in interactive mode. *)
Lemma WebsitesTs_processCustomer_no_readline_run (customerCode : string)
  (opts : Opts) (h : History) :
  nonInteractive opts = false ->
  exists r,
    WebsitesTs.processCustomer env false customerCode opts h
    = (r, (h ++ [GetCustomer customerCode])%list)
    /\ forall customer,
         directoryCustomer env h customerCode = inr customer ->
         truthy (website opts) = false
         \/ isBlank (orEmpty (website opts)) = false ->
         r = inr (errorResult "readline required for interactive prompts").
Proof.
  intros NI.
  unfold WebsitesTs.processCustomer, tryCatch, getCustomer, requestOrReject,
    WebsitesTs.overwriteStage, WebsitesTs.websiteStage,
    WebsitesTs.saveStage, WebsitesTs.ask, bind.
  cbv zeta. rewrite NI. cbn [negb].
  destruct (directoryCustomer env h customerCode) as [message|customer].
  { eexists. split; [reflexivity|]. intros customer D. discriminate D. }
  destruct (negb (isBlank (Customer.currentWebsite customer))
            && negb (force opts)).
  { eexists. split; [reflexivity|]. intros c _ _. reflexivity. }
  unfold ret at 1. cbv beta iota.
  destruct (truthy (website opts)) eqn:T; cbn [negb].
  - unfold ret at 1. cbv beta iota. rewrite T. cbn [negb orb].
    destruct (isBlank (orEmpty (website opts))) eqn:B.
    + eexists. split; [reflexivity|]. intros c _ [X|X]; discriminate X.
    + eexists. split; [reflexivity|]. intros c _ _. reflexivity.
  - eexists. split; [reflexivity|]. intros c _ _. reflexivity.
Qed.

(** X28.  Without a readline interface and in interactive mode, the
    sibling fetches the record and stops: nothing is asked and nothing is
    saved, and unless the given website is blank but not empty, the
    record fails with the readline message. *)
Theorem WebsitesTs_processCustomer_no_readline (customerCode : string)
  (opts : Opts) (customer : Customer.t) (h : History) :
  nonInteractive opts = false ->
  directoryCustomer env h customerCode = inr customer ->
  truthy (website opts) = false
  \/ isBlank (orEmpty (website opts)) = false ->
  WebsitesTs.processCustomer env false customerCode opts h
  = (inr (errorResult "readline required for interactive prompts"),
     (h ++ [GetCustomer customerCode])%list).
Proof.
  intros NI D W.
  destruct (WebsitesTs_processCustomer_no_readline_run customerCode opts h NI)
    as (r & E & F).
  rewrite E, (F customer D W). reflexivity.
Qed.

(** X29.  Without a readline interface, an interactive batch of two or
    more rows rejects with the readline message after the first record:
    only that record is fetched, and no tally is returned. *)
Theorem WebsitesTs_processCustomerList_no_readline (first second : Row)
  (rest : list Row) (opts : Opts) (h : History) :
  nonInteractive opts = false ->
  WebsitesTs.processCustomerList env false (first :: second :: rest) opts h
  = (inl "readline required for interactive prompts",
     (h ++ [GetCustomer (rowCode first)])%list).
Proof.
  intros NI.
  unfold WebsitesTs.processCustomerList. cbn [WebsitesTs.processRows].
  unfold bind at 1.
  destruct (WebsitesTs_processCustomer_no_readline_run (rowCode first)
              {| nonInteractive := nonInteractive opts;
                 website := rowWebsite first;
                 force := force opts;
                 autoConfirm := false |} h NI) as (r & S & _).
  destruct (WebsitesTs_processCustomer_total env false (rowCode first)
              {| nonInteractive := nonInteractive opts;
                 website := rowWebsite first;
                 force := force opts;
                 autoConfirm := false |} h) as (res & h1 & E).
  rewrite E in S. injection S as <- ->. rewrite E.
  rewrite NI. cbn [negb]. reflexivity.
Qed.

End TsFacts.
(* ================================================================= *)
(** ** The further facts on concrete runs *)

Local Open Scope string_scope.
Local Open Scope list_scope.

Lemma normalizeDomain_forced_prefix_witness :
  startsWithCI "www."
    (normalizeDomain (configWww true) "https://Example.com/shop") = true
  /\ startsWithCI "www."
       (WebsitesTs.normalizeDomain "https://Example.com/shop") = true.
Proof.
  apply (normalizeDomain_forced_prefix (configWww true)
           "https://Example.com/shop"); reflexivity.
Defined.

Lemma normalizeDomain_fallback_no_path_witness :
  Str.forallb notSlash (normalizeDomain (configWww false) "exa mple.com/path")
  = true.
Proof.
  apply (normalizeDomain_fallback_no_path (configWww false)
           "exa mple.com/path"); vm_compute; reflexivity.
Defined.

Lemma generateDomainPatterns_hostnames_witness :
  Str.forallb isHostChar "www.springfieldacme.com" = true
  /\ (exists pre, "www.springfieldacme.com" = (pre ++ ".com")%string)
  /\ (forceWww (configWww true) = true ->
      startsWith "www." "www.springfieldacme.com" = true).
Proof.
  apply (generateDomainPatterns_hostnames (configWww true) "Acme Inc"
           (Some "Springfield") "www.springfieldacme.com").
  vm_compute. right. left. reflexivity.
Defined.

Lemma guessDomain_found_witness :
  let cand := guessCandidate "www.acme.com" in
  In (Cand.url cand)
    (generateDomainPatterns (configWww true) "Acme Inc" (Some "Springfield"))
  /\ Cand.confidence cand = high
  /\ Cand.source cand = "domain_guess"
  /\ exists before,
      [Invoke DomainGuessing; DnsResolve "acme.com"; HttpHead "www.acme.com"]
      = before ++ [DnsResolve (stripWww (Cand.url cand));
                   HttpHead (Cand.url cand)]
      /\ dnsResolves (liveEnv "acme.com" acme) before
           (stripWww (Cand.url cand)) = true
      /\ httpResponds (liveEnv "acme.com" acme)
           (before ++ [DnsResolve (stripWww (Cand.url cand))])
           (Cand.url cand) = true.
Proof.
  cbv zeta.
  apply (guessDomain_found (configWww true) (liveEnv "acme.com" acme)
           "Acme Inc" "Springfield" []
           [Invoke DomainGuessing; DnsResolve "acme.com";
            HttpHead "www.acme.com"]
           (guessCandidate "www.acme.com")).
  vm_compute. reflexivity.
Defined.

Lemma guessDomain_unresolved_witness :
  guessDomain (configWww true) (quietEnv (inr acme)) "Acme Inc" "Springfield"
    []
  = (inr None,
     [] ++ Invoke DomainGuessing
        :: map (fun p => DnsResolve (stripWww p))
             (generateDomainPatterns (configWww true) "Acme Inc"
                (Some "Springfield"))).
Proof.
  apply (guessDomain_unresolved (configWww true) (quietEnv (inr acme))
           "Acme Inc" "Springfield" []).
  - reflexivity.
  - intros h host. reflexivity.
Defined.

Lemma searchWithOpenAI_found_witness :
  let env :=
    scriptedEnv (inr acme) okSave None (Some " https://Acme.com/home ") [] in
  let cand :=
    {| Cand.url := "www.acme.com"; Cand.confidence := medium;
       Cand.source := "openai"; Cand.allResults := [] |} in
  Cand.confidence cand = medium
  /\ Cand.source cand = "openai"
  /\ exists content,
      openaiContent env ([] ++ [Invoke OpenAI]) "Acme Inc" "Springfield"
        "IL" "" = Some content
      /\ includes "NOT_FOUND" (trim content) = false
      /\ Cand.url cand = normalizeDomain configOpenAIOnly (trim content).
Proof.
  cbv zeta.
  apply (searchWithOpenAI_found configOpenAIOnly
           (scriptedEnv (inr acme) okSave None
              (Some " https://Acme.com/home ") [])
           "Acme Inc" "Springfield" "IL" "" []
           [Invoke OpenAI; OpenAIRequest "Acme Inc" "Springfield" "IL" ""]).
  vm_compute. reflexivity.
Defined.

Lemma googleResult_high_not_blocklisted_witness :
  let cand :=
    {| Cand.url := "www.acme.com"; Cand.confidence := high;
       Cand.source := "google_cse";
       Cand.allResults :=
         ["https://Acme.com/about"; "https://acme.org/";
          "https://www.facebook.com/acme"] |} in
  exists link others,
    Cand.allResults cand = link :: others
    /\ List.existsb (fun bad => includes bad link) badDomains = false.
Proof.
  cbv zeta.
  apply (googleResult_high_not_blocklisted (configWww true) acmeItems).
  - vm_compute. reflexivity.
  - reflexivity.
Defined.

Lemma googleResult_alternates_witness :
  let cand :=
    {| Cand.url := "www.acme.com"; Cand.confidence := high;
       Cand.source := "google_cse";
       Cand.allResults :=
         ["https://Acme.com/about"; "https://acme.org/";
          "https://www.facebook.com/acme"] |} in
  Permutation (Cand.allResults cand) (map Item.link acmeItems)
  /\ Cand.source cand = "google_cse"
  /\ exists link others hostname,
      Cand.allResults cand = link :: others
      /\ URL_hostname link = Some hostname
      /\ Cand.url cand = normalizeDomain (configWww true) hostname.
Proof.
  cbv zeta.
  apply (googleResult_alternates (configWww true) acmeItems).
  vm_compute. reflexivity.
Defined.

Lemma processCustomer_fetch_rejected_witness :
  processCustomer (configWww true) (quietEnv (inl "Customer not found"))
    "AC01" (unattended false) []
  = (inr (errorResult "Customer not found"), [] ++ [GetCustomer "AC01"]).
Proof.
  apply (processCustomer_fetch_rejected (configWww true)
           (quietEnv (inl "Customer not found")) "AC01" "Customer not found"
           (unattended false) []).
  reflexivity.
Defined.

Lemma processCustomer_updated_saved_witness :
  let env := liveEnv "acme.com" acme in
  exists u outId outCode before response,
    Res.url (updatedResult "www.acme.com") = Some u
    /\ snd (processCustomer (configWww true) env "AC01" (unattended false) [])
       = before
           ++ [SaveCustomer (saveCustomerBody outId outCode (toLowerCase u))]
    /\ saves before = saves []
    /\ directorySave env before
         (saveCustomerBody outId outCode (toLowerCase u)) = inr response
    /\ saveSucceeded response = true.
Proof.
  cbv zeta.
  apply (processCustomer_updated_saved (configWww true)
           (liveEnv "acme.com" acme) "AC01" (unattended false) []
           (snd (processCustomer (configWww true) (liveEnv "acme.com" acme)
                   "AC01" (unattended false) []))
           (updatedResult "www.acme.com")).
  - vm_compute. reflexivity.
  - reflexivity.
Defined.

Lemma processCustomer_given_website_no_tier_witness :
  exists d,
    snd (processCustomer (configWww true) (liveEnv "acme.com" acme) "AC01"
           (pinned "acme.example") [])
    = [] ++ d
    /\ countEvents isTierEvent d = 0.
Proof.
  apply (processCustomer_given_website_no_tier (configWww true)
           (liveEnv "acme.com" acme) "AC01" (pinned "acme.example") []).
  reflexivity.
Defined.

Lemma processCustomer_unattended_no_question_witness :
  exists d,
    snd (processCustomer (configWww true) (liveEnv "acme.com" acme) "AC01"
           (unattended false) [])
    = [] ++ d
    /\ countEvents isQuestion d = 0.
Proof.
  apply (processCustomer_unattended_no_question (configWww true)
           (liveEnv "acme.com" acme) "AC01" (unattended false) []).
  reflexivity.
Defined.

Lemma readCsvFile_round_trip_witness :
  let rows := [Bare "WE01"; Pinned "4W00" "www.x.com"; Pinned "AC01" ""] in
  readCsvFile (join nl (map rowLine rows)) = rows
  /\ readCsvFile (join crlf (map rowLine rows)) = rows.
Proof.
  cbv zeta.
  apply (readCsvFile_round_trip
           [Bare "WE01"; Pinned "4W00" "www.x.com"; Pinned "AC01" ""]).
  vm_compute. reflexivity.
Defined.

Lemma readCsvFile_ignores_line_witness :
  readCsvFile (join nl (["WE01"] ++ "  # done" :: ["4W00,www.x.com"]))
  = readCsvFile (join nl (["WE01"] ++ ["4W00,www.x.com"]))
  /\ readCsvFile (join crlf (["WE01"] ++ "  # done" :: ["4W00,www.x.com"]))
     = readCsvFile (join crlf (["WE01"] ++ ["4W00,www.x.com"])).
Proof.
  apply (readCsvFile_ignores_line ["WE01"] ["4W00,www.x.com"] "  # done").
  - vm_compute. reflexivity.
  - right. vm_compute. reflexivity.
Defined.



Lemma parseArgs_values_witness :
  let argv := ["node"; "update-websites.js"; "--website"; "--force"] in
  In ("--" ++ "website")%string (skipn 2 argv)
  /\ isOption ("website", Flag) = true
  /\ True.
Proof.
  cbv zeta.
  apply (parseArgs_values
           ["node"; "update-websites.js"; "--website"; "--force"]
           "website" Flag).
  vm_compute. left. reflexivity.
Defined.

Lemma WebsitesTs_processCustomer_unattended_bare_witness :
  WebsitesTs.processCustomer (quietEnv (inr acme)) false "AC01"
    (unattended false) []
  = (inr match directoryCustomer (quietEnv (inr acme)) [] "AC01" with
         | inl message => errorResult message
         | inr _ => skippedResult
         end,
     [] ++ [GetCustomer "AC01"]).
Proof.
  apply (WebsitesTs_processCustomer_unattended_bare (quietEnv (inr acme))
           false "AC01" (unattended false) []); reflexivity.
Defined.

Lemma WebsitesTs_processCustomer_given_website_witness :
  let env := quietEnv (inr (customerWith "" "" "")) in
  let body := saveCustomerBody "0" "AC01" "www.Acme Tools.COM" in
  WebsitesTs.processCustomer env false "AC01" (pinned "Acme Tools.COM/shop")
    []
  = (inr (savedResult true),
     [GetCustomer "AC01"; SaveCustomer body]).
Proof.
  cbv zeta.
  refine (eq_trans
            (WebsitesTs_processCustomer_given_website
               (quietEnv (inr (customerWith "" "" ""))) false "AC01"
               "Acme Tools.COM/shop" (pinned "Acme Tools.COM/shop")
               (customerWith "" "" "") [] eq_refl eq_refl eq_refl eq_refl
               (or_introl eq_refl))
            _).
  vm_compute. reflexivity.
Defined.

Lemma WebsitesTs_processCustomer_no_readline_witness :
  WebsitesTs.processCustomer (quietEnv (inr acme)) false "AC01" interactive []
  = (inr (errorResult "readline required for interactive prompts"),
     [] ++ [GetCustomer "AC01"]).
Proof.
  apply (WebsitesTs_processCustomer_no_readline (quietEnv (inr acme)) "AC01"
           interactive acme []).
  - reflexivity.
  - reflexivity.
  - left. reflexivity.
Defined.

Lemma WebsitesTs_processCustomerList_no_readline_witness :
  WebsitesTs.processCustomerList (quietEnv (inr acme)) false
    (Bare "AC01" :: Bare "WE01" :: []) interactive []
  = (inl "readline required for interactive prompts",
     [] ++ [GetCustomer (rowCode (Bare "AC01"))]).
Proof.
  apply (WebsitesTs_processCustomerList_no_readline (quietEnv (inr acme))
           (Bare "AC01") (Bare "WE01") [] interactive []).
  reflexivity.
Defined.
